(** * App.vue: the employee roster component

    A shallow embedding of the script block of [src/App.vue]: the status
    message helper [mostrarMensaje], the retrying HTTP client
    [fetchWithRetry], and the two controller operations [obtenerEmpleados]
    and [agregarEmpleado], together with the part of the template that
    decides what the list area shows.

    The component runs on a single-threaded event loop.  The model runs one
    operation at a time against a virtual clock: every [await] (a network
    call or a back-off delay) moves the clock forward and fires the timers
    that became due meanwhile.  The replies of the network are an oracle
    indexed by the number of requests issued so far. *)

From Stdlib Require Import List ZArith NArith Arith Bool Lia.
From Stdlib Require Import String Ascii DecimalString.
From Stdlib Require Import Sorted Permutation.
From Equations Require Import Equations.
Import ListNotations.

(** ** The JavaScript values the component handles *)

Module JS.

(** A JavaScript string is a sequence of UTF-16 code units. *)
Definition jsstring := list N.

(** An ASCII literal as a JavaScript string. *)
Definition lit (s : string) : jsstring :=
  map N_of_ascii (list_ascii_of_string s).

Fixpoint eqb (a b : jsstring) : bool :=
  match a, b with
  | [], [] => true
  | x :: a', y :: b' => N.eqb x y && eqb a' b'
  | _, _ => false
  end.

(** [String(n)] for an integer (below 1e21, where JavaScript switches to
    the exponent notation). *)
Definition of_N (n : N) : jsstring := lit (NilZero.string_of_uint (N.to_uint n)).
Definition of_nat (n : nat) : jsstring := of_N (N.of_nat n).
Definition of_Z (z : Z) : jsstring := lit (NilZero.string_of_int (Z.to_int z)).

(** ECMAScript WhiteSpace and LineTerminator code points, the ones
    [String.prototype.trim] strips; all of them are single code units. *)
Definition is_space (c : N) : bool :=
  match c with
  | 0x09 | 0x0A | 0x0B | 0x0C | 0x0D | 0x20 | 0xA0
  | 0x1680 | 0x2028 | 0x2029 | 0x202F | 0x205F | 0x3000 | 0xFEFF => true
  | _ => (0x2000 <=? c) && (c <=? 0x200A)
  end%N.

Fixpoint trimStart (s : jsstring) : jsstring :=
  match s with
  | c :: s' => if is_space c then trimStart s' else s
  | [] => []
  end.

Definition trimEnd (s : jsstring) : jsstring := rev (trimStart (rev s)).

Definition trim (s : jsstring) : jsstring := trimEnd (trimStart s).

(** A string in a condition: the empty string is the only falsy one. *)
Definition truthy (s : jsstring) : bool :=
  match s with [] => false | _ => true end.

(** The values carried by the fields of the records the server sends.
    Numbers are integers (the ids of the roster). *)
Inductive value :=
| JNum (n : Z)
| JStr (s : jsstring).

(** A flat object, as [JSON.parse] builds it: its own properties in order,
    keys pairwise distinct. *)
Definition object := list (jsstring * value).

(** Property read [o.key]; [None] is [undefined]. *)
Fixpoint get (key : jsstring) (o : object) : option value :=
  match o with
  | [] => None
  | (k, v) :: o' => if eqb k key then Some v else get key o'
  end.

(** A number as arithmetic produces it: an integer or NaN. *)
Inductive number :=
| NaN
| Num (n : Z).

(** [ToNumber] on a property read.  [undefined] gives NaN.  A string would
    go through StringToNumber, which is not modelled: the records of the
    roster carry numeric ids, and a string is given NaN here.  What is
    stated below about the order of the list is stated for records that
    carry a numeric id ([tiene_id]) or none at all. *)
Definition to_number (v : option value) : number :=
  match v with
  | Some (JNum n) => Num n
  | Some (JStr _) => NaN
  | None => NaN
  end.

(** The binary [-]. *)
Definition sub (a b : number) : number :=
  match a, b with
  | Num x, Num y => Num (x - y)
  | _, _ => NaN
  end.

(** [Array.prototype.sort(comparefn)].  The comparator's result is read as
    ECMAScript's SortCompare does: NaN counts as +0.  The sort is stable
    (ES2019), so for a consistent comparator its result is determined
    ([sort_unique] below, for the comparator of the roster); it is computed
    here by insertion from the right, which keeps an element in front of
    the later ones that compare equal to it.  For an inconsistent
    comparator the order is left to the engine, and this is one such
    order. *)
Section Sort.

Variable A : Type.
Variable comparefn : A -> A -> number.

Definition sort_compare (x y : A) : Z :=
  match comparefn x y with
  | NaN => 0
  | Num v => v
  end.

Fixpoint insert (x : A) (l : list A) : list A :=
  match l with
  | [] => [x]
  | y :: l' => if (sort_compare x y <=? 0)%Z then x :: l else y :: insert x l'
  end.

Fixpoint sort (l : list A) : list A :=
  match l with
  | [] => []
  | x :: l' => insert x (sort l')
  end.

End Sort.
Arguments sort_compare {A} comparefn x y.
Arguments insert {A} comparefn x l.
Arguments sort {A} comparefn l.

(** Vue's [toDisplayString] in an interpolation [{{ ... }}]. *)
Definition toDisplayString (v : option value) : jsstring :=
  match v with
  | None => []
  | Some (JNum n) => of_Z n
  | Some (JStr s) => s
  end.

(** What a rejected promise or a [throw] carries. *)
Inductive result (E A : Type) :=
| Ok (a : A)
| Throw (e : E).
Arguments Ok {E A} a.
Arguments Throw {E A} e.

End JS.

Import JS.

(** ** HTTP through axios *)

(** The body of a response.  [Arreglo] is a JSON array of flat objects;
    [Otro] stands for any payload that is not an array (an empty body, a
    string, an object, null), on which [data.sort] raises a TypeError. *)
Inductive Body :=
| Arreglo (filas : list object)
| Otro.

(** An axios response; only the parts the component may read. *)
Record Response := mkResponse {
  status : Z;
  data : Body
}.

(** What the transport does with one request: it fails without a response,
    or a response with some status arrives; either way after [latency]
    milliseconds. *)
Inductive Outcome :=
| Transport (msg : jsstring)
| Http (st : Z) (body : Body).

Record NetReply := mkNetReply {
  latency : N;
  outcome : Outcome
}.

Inductive JsError :=
| NetworkFailure (msg : jsstring)      (* AxiosError without a response *)
| ServerFailure (response : Response)  (* AxiosError: status outside 2xx *)
| TypeError.

(** The options the callers pass, and the config [{ url, ...options }]. *)
Record Options := mkOptions {
  o_method : jsstring;
  o_data : option object
}.

Record Config := mkConfig {
  url : jsstring;
  method : jsstring;
  payload : option object
}.

Definition spread (u : jsstring) (options : Options) : Config :=
  mkConfig u (o_method options) (o_data options).

(** axios's default [validateStatus]: the promise resolves on a 2xx status
    and rejects otherwise. *)
Definition validateStatus (st : Z) : bool := ((200 <=? st) && (st <? 300))%Z.

Definition settle (r : NetReply) : result JsError Response :=
  match outcome r with
  | Transport msg => Throw (NetworkFailure msg)
  | Http st body =>
      if validateStatus st then Ok (mkResponse st body)
      else Throw (ServerFailure (mkResponse st body))
  end.

(** ** The state of the component and of its environment *)

(** What a run leaves behind for an observer, in order: the trace. *)
Inductive Evento :=
| Peticion (cfg : Config)                    (* axios(cfg) *)
| Aviso (msg : jsstring) (error : JsError)   (* console.warn(msg, error) *)
| Espera (handle : nat) (delay : N)          (* awaited setTimeout(resolve, delay) *)
| Fallo (error : JsError).                   (* console.error(error) *)

(** The refs of the script block under their own names, then the
    environment: the clock in milliseconds, the pending timers that clear
    the message (handle and deadline), the next timer handle, the number of
    requests issued, and the trace. *)
Record Estado := mkEstado {
  empleados : list object;
  isLoading : bool;
  esError : bool;
  mensajeEstado : jsstring;
  nombreInput : jsstring;
  mensajeTimeoutId : option nat;
  clock : N;
  timers : list (nat * N);
  next_handle : nat;
  sent : nat;
  trace : list Evento
}.

Definition set_empleados v s :=
  mkEstado v (isLoading s) (esError s) (mensajeEstado s) (nombreInput s)
    (mensajeTimeoutId s) (clock s) (timers s) (next_handle s) (sent s) (trace s).
Definition set_isLoading v s :=
  mkEstado (empleados s) v (esError s) (mensajeEstado s) (nombreInput s)
    (mensajeTimeoutId s) (clock s) (timers s) (next_handle s) (sent s) (trace s).
Definition set_esError v s :=
  mkEstado (empleados s) (isLoading s) v (mensajeEstado s) (nombreInput s)
    (mensajeTimeoutId s) (clock s) (timers s) (next_handle s) (sent s) (trace s).
Definition set_mensajeEstado v s :=
  mkEstado (empleados s) (isLoading s) (esError s) v (nombreInput s)
    (mensajeTimeoutId s) (clock s) (timers s) (next_handle s) (sent s) (trace s).
Definition set_nombreInput v s :=
  mkEstado (empleados s) (isLoading s) (esError s) (mensajeEstado s) v
    (mensajeTimeoutId s) (clock s) (timers s) (next_handle s) (sent s) (trace s).
Definition set_mensajeTimeoutId v s :=
  mkEstado (empleados s) (isLoading s) (esError s) (mensajeEstado s) (nombreInput s)
    v (clock s) (timers s) (next_handle s) (sent s) (trace s).
Definition set_clock v s :=
  mkEstado (empleados s) (isLoading s) (esError s) (mensajeEstado s) (nombreInput s)
    (mensajeTimeoutId s) v (timers s) (next_handle s) (sent s) (trace s).
Definition set_timers v s :=
  mkEstado (empleados s) (isLoading s) (esError s) (mensajeEstado s) (nombreInput s)
    (mensajeTimeoutId s) (clock s) v (next_handle s) (sent s) (trace s).
Definition set_next_handle v s :=
  mkEstado (empleados s) (isLoading s) (esError s) (mensajeEstado s) (nombreInput s)
    (mensajeTimeoutId s) (clock s) (timers s) v (sent s) (trace s).
Definition set_sent v s :=
  mkEstado (empleados s) (isLoading s) (esError s) (mensajeEstado s) (nombreInput s)
    (mensajeTimeoutId s) (clock s) (timers s) (next_handle s) v (trace s).
(** An event is appended to the trace. *)
Definition anotar (e : Evento) s :=
  mkEstado (empleados s) (isLoading s) (esError s) (mensajeEstado s) (nombreInput s)
    (mensajeTimeoutId s) (clock s) (timers s) (next_handle s) (sent s) (trace s ++ [e]).

(** The component as the script block initialises it, before [onMounted]. *)
Definition inicial : Estado :=
  mkEstado [] false false [] [] None 0 [] 0 0 [].

(** ** Asynchronous code: state passing with rejection *)

Definition M (A : Type) := Estado -> result JsError A * Estado.

Definition ret {A} (a : A) : M A := fun s => (Ok a, s).

Definition throw {A} (e : JsError) : M A := fun s => (Throw e, s).

Definition bind {A B} (m : M A) (k : A -> M B) : M B :=
  fun s => match m s with
           | (Ok a, s') => k a s'
           | (Throw e, s') => (Throw e, s')
           end.

(** A synchronous statement that only updates the state. *)
Definition exec (f : Estado -> Estado) : M unit := fun s => (Ok tt, f s).

(** [try { m } catch (error) { h error }] *)
Definition try_catch {A} (m : M A) (h : JsError -> M A) : M A :=
  fun s => match m s with
           | (Ok a, s') => (Ok a, s')
           | (Throw e, s') => h e s'
           end.

(** [... finally { f }], for a block [f] that cannot throw. *)
Definition finally {A} (m : M A) (f : Estado -> Estado) : M A :=
  fun s => let (r, s') := m s in (r, f s').

Declare Scope async_scope.
Delimit Scope async_scope with async.
Notation "x <- m ;; k" := (bind m (fun x => k))
  (at level 61, m at next level, right associativity) : async_scope.
Notation "m ;; k" := (bind m (fun _ => k))
  (at level 61, right associativity) : async_scope.
Open Scope async_scope.

(** ** Timers and the clock *)

(** The callback of the message timer (App.vue, lines 31-34). *)
Definition limpiar (s : Estado) : Estado :=
  set_mensajeTimeoutId None (set_mensajeEstado [] s).

Definition setTimeout (delay : N) (s : Estado) : nat * Estado :=
  (next_handle s,
   set_next_handle (S (next_handle s))
     (set_timers (timers s ++ [(next_handle s, (clock s + delay)%N)]) s)).

(** Cancelling an unknown or expired handle does nothing. *)
Definition clearTimeout (handle : nat) (s : Estado) : Estado :=
  set_timers (filter (fun t => negb (Nat.eqb (fst t) handle)) (timers s)) s.

Definition due (t : N) (timer : nat * N) : bool := (snd timer <=? t)%N.

(** The event loop reaches the instant [t]: the timers due by then fire,
    in order, and leave the list. *)
Definition avanzar (t : N) (s : Estado) : Estado :=
  fold_left (fun s' _ => limpiar s')
    (filter (due t) (timers s))
    (set_clock (N.max (clock s) t)
       (set_timers (filter (fun timer => negb (due t timer)) (timers s)) s)).

(** The task is suspended for [d] milliseconds. *)
Definition transcurrir (d : N) (s : Estado) : Estado :=
  avanzar (clock s + d) s.

(** [await new Promise(resolve => setTimeout(resolve, delay))]: the timer
    takes a handle, and the task resumes when it fires. *)
Definition dormir (delay : N) (s : Estado) : Estado :=
  transcurrir delay
    (anotar (Espera (next_handle s) delay) (set_next_handle (S (next_handle s)) s)).

(** ** The script block *)

(** Configuración *)
Definition API_URL : jsstring := lit "http://localhost:4001".
Definition MAX_RETRIES : nat := 3.
Definition DELAY_MS : N := 1000.

(** [mostrarMensaje(mensaje, error = false)] *)
Definition mostrarMensaje (mensaje : jsstring) (error : bool) (s : Estado) : Estado :=
  let s1 := match mensajeTimeoutId s with
            | Some id => clearTimeout id s
            | None => s
            end in
  let s2 := set_mensajeEstado mensaje s1 in
  let s3 := set_esError error s2 in
  if negb error then
    let (id, s4) := setTimeout 4000 s3 in
    set_mensajeTimeoutId (Some id) s4
  else s3.

Section Network.

(** The reply to the i-th request of the run. *)
Variable net : nat -> NetReply.

(** The state when the reply to a request has arrived. *)
Definition tras_peticion (cfg : Config) (s : Estado) : Estado :=
  transcurrir (latency (net (sent s)))
    (anotar (Peticion cfg) (set_sent (S (sent s)) s)).

(** [await axios(cfg)] *)
Definition axios (cfg : Config) : M Response :=
  fun s => (settle (net (sent s)), tras_peticion cfg s).

Definition backoff (retries : nat) : N := (DELAY_MS * 2 ^ N.of_nat retries)%N.

Definition aviso (retries : nat) (delay : N) : jsstring :=
  lit "Intento " ++ of_nat (retries + 1) ++ lit " fallido. Reintentando en "
    ++ of_N delay ++ lit "ms...".

(** [fetchWithRetry(url, options = {}, retries = 0)] *)
Equations? fetchWithRetry (u : jsstring) (options : Options) (retries : nat)
  (s : Estado) : result JsError Response * Estado by wf (MAX_RETRIES - retries) lt :=
fetchWithRetry u options retries s with axios (spread u options) s := {
  | (Ok response, s1) => (Ok response, s1)
  | (Throw error, s1) with lt_dec retries MAX_RETRIES := {
    | left _ =>
        let delay := backoff retries in
        let s2 := anotar (Aviso (aviso retries delay) error) s1 in
        fetchWithRetry u options (S retries) (dormir delay s2)
    | right _ => (Throw error, s1) } }.
Proof.
  unfold MAX_RETRIES in *.
  destruct retries as [|[|[|?]]]; cbn; lia.
Qed.

(** The comparator of the refresh: [(a, b) => a.id_empleado - b.id_empleado]. *)
Definition id_empleado (e : object) : number :=
  to_number (get (lit "id_empleado") e).

Definition por_id (a b : object) : number :=
  sub (id_empleado a) (id_empleado b).

(** [data.sort(comparefn)] on the body of a response.  The array is sorted
    in place and returned, so [data] and the result are the same array
    afterwards; on anything but an array the call raises. *)
Definition data_sort (d : Body) : M (list object) :=
  match d with
  | Arreglo filas => ret (sort por_id filas)
  | Otro => throw TypeError
  end.

Definition LISTA_ACTUALIZADA (n : nat) : jsstring :=
  lit "Lista actualizada (" ++ of_nat n ++ lit ") empleados".
Definition ERROR_CONECTAR : jsstring := lit "Error al conectar con el servidor.".
(* U+00ED is the accented i of the source text *)
Definition NOMBRE_VACIO : jsstring :=
  lit "El nombre no puede estar vac" ++ [0xED%N] ++ lit "o.".
(* U+0022 is the double quote, U+2705 the check mark of the source text *)
Definition EMPLEADO_AGREGADO (nombre : jsstring) : jsstring :=
  lit "Empleado " ++ [0x22%N] ++ nombre ++ [0x22%N] ++ lit " agregado " ++ [0x2705%N].
Definition ERROR_AGREGAR : jsstring := lit "Error al agregar empleado.".

Definition GET_empleado : Options := mkOptions (lit "GET") None.
Definition POST_empleado (nombre : jsstring) : Options :=
  mkOptions (lit "POST") (Some [(lit "nombre", JStr nombre)]).

(** [obtenerEmpleados()] *)
Definition obtenerEmpleados : M unit :=
  exec (set_isLoading true) ;;
  exec (set_empleados []) ;;
  exec (set_esError false) ;;
  finally
    (try_catch
       (response <- fetchWithRetry (API_URL ++ lit "/empleado") GET_empleado 0 ;;
        sorted <- data_sort (data response) ;;
        exec (set_empleados sorted) ;;
        exec (mostrarMensaje (LISTA_ACTUALIZADA (List.length sorted)) false))
       (fun error =>
        exec (anotar (Fallo error)) ;;
        exec (mostrarMensaje ERROR_CONECTAR true) ;;
        exec (set_esError true)))
    (set_isLoading false).

(** [agregarEmpleado()] *)
Definition agregarEmpleado : M unit :=
  fun s =>
    let nombre := trim (nombreInput s) in
    if negb (truthy nombre) then
      exec (mostrarMensaje NOMBRE_VACIO true) s
    else
      (exec (set_isLoading true) ;;
       finally
         (try_catch
            (fetchWithRetry (API_URL ++ lit "/empleado") (POST_empleado nombre) 0 ;;
             exec (set_nombreInput []) ;;
             exec (mostrarMensaje (EMPLEADO_AGREGADO nombre) false) ;;
             obtenerEmpleados)
            (fun _ => exec (mostrarMensaje ERROR_AGREGAR true)))
         (set_isLoading false)) s.

(** The states the component can be in: mounted, then any sequence of
    reloads, submissions, edits of the input field and idle time. *)
Inductive alcanzable : Estado -> Prop :=
| alc_montado r s' :
    obtenerEmpleados inicial = (r, s') -> alcanzable s'
| alc_recargar s r s' :
    alcanzable s -> obtenerEmpleados s = (r, s') -> alcanzable s'
| alc_enviar s r s' :
    alcanzable s -> agregarEmpleado s = (r, s') -> alcanzable s'
| alc_escribir s v :
    alcanzable s -> alcanzable (set_nombreInput v s)
| alc_reposo s d :
    alcanzable s -> alcanzable (transcurrir d s).

End Network.

(** ** The template: what the list area shows *)

(** One row: the name, and the id behind a [#]. *)
Definition fila (e : object) : jsstring * jsstring :=
  (toDisplayString (get (lit "nombre") e),
   lit "#" ++ toDisplayString (get (lit "id_empleado") e)).

Inductive Vista :=
| Cargando
| ErrorCarga
| SinEmpleados
| Lista (filas : list (jsstring * jsstring)).

(** The [v-if] / [v-else-if] / [v-else] chain of the template. *)
Definition vista (s : Estado) : Vista :=
  if isLoading s && (List.length (empleados s) =? 0) then Cargando
  else if negb (isLoading s) && esError s then ErrorCarga
  else if negb (isLoading s) && (List.length (empleados s) =? 0) then SinEmpleados
  else Lista (map fila (empleados s)).

(** ** Vocabulary of the statements *)

(** The timers still pending once the clock has reached [t]. *)
Definition pendientes (t : N) (s : Estado) : list (nat * N) :=
  filter (fun timer => negb (due t timer)) (timers s).

(** The discipline of the message timer: no timer is pending, or exactly
    one is and [mensajeTimeoutId] holds its handle. *)
Definition un_temporizador (s : Estado) : Prop :=
  match timers s with
  | [] => True
  | [(id, _)] => mensajeTimeoutId s = Some id
  | _ => False
  end.

(** The refs that neither the client nor the clock touches. *)
Definition marco (s s' : Estado) : Prop :=
  empleados s' = empleados s /\ isLoading s' = isLoading s /\
  esError s' = esError s /\ nombreInput s' = nombreInput s.

(** The delays awaited and the requests issued, read off a trace. *)
Definition demoras (tr : list Evento) : list N :=
  flat_map (fun e => match e with Espera _ d => [d] | _ => [] end) tr.

Definition peticiones (tr : list Evento) : list Config :=
  flat_map (fun e => match e with Peticion cfg => [cfg] | _ => [] end) tr.

(** The replies from the [desde]-th on are failures, with these errors. *)
Fixpoint fallan (net : nat -> NetReply) (desde : nat) (errores : list JsError) : Prop :=
  match errores with
  | [] => True
  | e :: resto => settle (net desde) = Throw e /\ fallan net (S desde) resto
  end.

(** What a run of failed attempts leaves in the trace: per attempt the
    request, the warning and the awaited delay. *)
Fixpoint reintentos (cfg : Config) (errores : list JsError) (retries handle : nat)
  : list Evento :=
  match errores with
  | [] => []
  | e :: resto =>
      Peticion cfg :: Aviso (aviso retries (backoff retries)) e
        :: Espera handle (backoff retries)
        :: reintentos cfg resto (S retries) (S handle)
  end.

(** The state after as many failed attempts as there are errors. *)
Fixpoint tras_fallos (net : nat -> NetReply) (cfg : Config) (errores : list JsError)
  (retries : nat) (s : Estado) : Estado :=
  match errores with
  | [] => s
  | e :: resto =>
      tras_fallos net cfg resto (S retries)
        (dormir (backoff retries)
           (anotar (Aviso (aviso retries (backoff retries)) e) (tras_peticion net cfg s)))
  end.

(** The id of a record that has a numeric one. *)
Definition tiene_id (e : object) : bool :=
  match id_empleado e with Num _ => true | NaN => false end.

Definition clave (e : object) : Z :=
  match id_empleado e with Num n => n | NaN => 0 end.

Definition por_clave (a b : object) : Prop := (clave a <= clave b)%Z.

(** The trace grows by events that all satisfy [P]. *)
Definition crece (P : Evento -> Prop) (s s' : Estado) : Prop :=
  exists tr, trace s' = trace s ++ tr /\ Forall P tr.

(** The events of a call of the client with config [c]. *)
Definition del_cliente (c : Config) (e : Evento) : Prop :=
  match e with
  | Peticion c' => c = c'
  | Aviso _ _ | Espera _ _ => True
  | Fallo _ => False
  end.

(** The [catch] and [finally] blocks of [obtenerEmpleados] in one. *)
Definition recarga_fallida (error : JsError) (s1 : Estado) : Estado :=
  set_isLoading false
    (set_esError true (mostrarMensaje ERROR_CONECTAR true (anotar (Fallo error) s1))).

(** The state in which the reload calls the client. *)
Definition al_recargar (s : Estado) : Estado :=
  set_esError false (set_empleados [] (set_isLoading true s)).

(** The state a successful reload ends in. *)
Definition recarga_lograda (filas : list object) (s1 : Estado) : Estado :=
  set_isLoading false
    (mostrarMensaje (LISTA_ACTUALIZADA (List.length (sort por_id filas))) false
       (set_empleados (sort por_id filas) s1)).

(** A run ends in failure when [console.error] is the last thing it logs. *)
Definition termina_en_fallo (s s' : Estado) : Prop :=
  exists tr error, trace s' = trace s ++ tr ++ [Fallo error].

(** The configs the controller sends. *)
Definition leer : Config := spread (API_URL ++ lit "/empleado") GET_empleado.
Definition escribir (nombre : jsstring) : Config :=
  spread (API_URL ++ lit "/empleado") (POST_empleado nombre).

(** ** Scenarios *)

(** A server that answers every request with 200 and the same roster. *)
Definition servidor (filas : list object) : nat -> NetReply :=
  fun _ => mkNetReply 0 (Http 200 (Arreglo filas)).

(** No server: every request fails in transport. *)
Definition sin_servidor : nat -> NetReply :=
  fun _ => mkNetReply 0 (Transport (lit "Network Error")).

(** A server that answers every request with 500. *)
Definition servidor_500 : nat -> NetReply :=
  fun _ => mkNetReply 0 (Http 500 Otro).

(** A server that answers the first request with 201 and an empty body,
    and every later one with 200 and the roster. *)
Definition servidor_201 (filas : list object) (i : nat) : NetReply :=
  match i with
  | 0 => mkNetReply 0 (Http 201 Otro)
  | _ => mkNetReply 0 (Http 200 (Arreglo filas))
  end.

(** A server that answers the first request and is gone afterwards. *)
Definition se_cae (filas : list object) (i : nat) : NetReply :=
  match i with
  | 0 => mkNetReply 0 (Http 200 (Arreglo filas))
  | _ => mkNetReply 0 (Transport (lit "Network Error"))
  end.

Definition caido : JsError := NetworkFailure (lit "Network Error").

(** Three failures, then the server is back. *)
Definition inestable (filas : list object) (i : nat) : NetReply :=
  match i with
  | 0 => mkNetReply 10 (Transport (lit "Network Error"))
  | 1 => mkNetReply 20 (Http 503 Otro)
  | 2 => mkNetReply 20 (Http 404 Otro)
  | _ => mkNetReply 5 (Http 200 (Arreglo filas))
  end.

(** Two transport failures, then 500s. *)
Definition intermitente (i : nat) : NetReply :=
  match i with
  | 0 | 1 => mkNetReply 30 (Transport (lit "Network Error"))
  | _ => mkNetReply 40 (Http 500 Otro)
  end.

Definition rechazo : JsError := ServerFailure (mkResponse 500 Otro).

Definition errores_inestable : list JsError :=
  [caido; ServerFailure (mkResponse 503 Otro); ServerFailure (mkResponse 404 Otro)].

Definition ejemplo : list object :=
  [ [(lit "id_empleado", JNum 3); (lit "nombre", JStr (lit "B"))];
    [(lit "id_empleado", JNum 1); (lit "nombre", JStr (lit "A"))] ].

(** The same roster under the field names of the interface description. *)
Definition ejemplo_en : list object :=
  [ [(lit "id_employee", JNum 3); (lit "name", JStr (lit "B"))];
    [(lit "id_employee", JNum 1); (lit "name", JStr (lit "A"))] ].

Definition con_nombre (nombre : string) : Estado :=
  set_nombreInput (lit nombre) inicial.

(** The component once mounted against [se_cae ejemplo]: the roster is
    on display. *)
Definition cargado : Estado := snd (obtenerEmpleados (se_cae ejemplo) inicial).

(** ** The computed properties and the message banner *)

(** [mensajeClase] *)
Definition mensajeClase (s : Estado) : jsstring :=
  if esError s then lit "bg-red-100 text-red-800 border-red-300"
  else lit "bg-emerald-100 text-emerald-800 border-emerald-300".

Record Boton := mkBoton {
  icon : jsstring;
  text : jsstring
}.

(** [submitButtonContent]; the icons are U+1F504 and U+1F4BE, two code
    units each. *)
Definition submitButtonContent (s : Estado) : Boton :=
  if isLoading s then mkBoton [0xD83D; 0xDD04]%N (lit "Guardando...")
  else mkBoton [0xD83D; 0xDCBE]%N (lit "Guardar Empleado").

(** The message box of the template: present when [mensajeEstado] is
    truthy, with the class [mensajeClase] adds to the fixed ones and the
    message as its text. *)
Definition banner (s : Estado) : option (jsstring * jsstring) :=
  if truthy (mensajeEstado s) then Some (mensajeClase s, mensajeEstado s)
  else None.

(** The three error texts of the component. *)
Definition texto_de_error (m : jsstring) : Prop :=
  m = ERROR_CONECTAR \/ m = NOMBRE_VACIO \/ m = ERROR_AGREGAR.

(** The component at rest, between two runs of its handlers: nothing is
    loading; with the error flag up one of the error texts is shown and no
    timer is pending; with the flag down the message is blank and no timer
    is pending, or the message counts the rows of the list and its timer
    is pending, due within 4000 ms. *)
Definition en_reposo (s : Estado) : Prop :=
  isLoading s = false /\
  ((esError s = true /\ timers s = [] /\ texto_de_error (mensajeEstado s)) \/
   (esError s = false /\
    ((mensajeEstado s = [] /\ timers s = []) \/
     (mensajeEstado s = LISTA_ACTUALIZADA (List.length (empleados s)) /\
      exists id limite,
        timers s = [(id, limite)] /\ mensajeTimeoutId s = Some id /\
        (clock s < limite <= clock s + 4000)%N)))).

(** What the steps of the client may do to the refs and the timers:
    nothing to the list, the flags and the input field; the message stays
    or is blanked; the handle stays or is dropped; timers only leave. *)
Definition solo_expira (s s' : Estado) : Prop :=
  marco s s' /\
  (mensajeEstado s' = mensajeEstado s \/ mensajeEstado s' = []) /\
  (mensajeTimeoutId s' = mensajeTimeoutId s \/ mensajeTimeoutId s' = None) /\
  (forall timer, In timer (timers s') -> In timer (timers s)) /\
  (clock s <= clock s')%N.

(** The state a reload ends in, by the outcome of its last request. *)
Definition fin_de_recarga (r : result JsError Response) (s1 : Estado) : Estado :=
  match r with
  | Ok response =>
      match data response with
      | Arreglo filas => recarga_lograda filas s1
      | Otro => recarga_fallida TypeError s1
      end
  | Throw error => recarga_fallida error s1
  end.

(** A server that answers every request with 204 and no body. *)
Definition sin_contenido : nat -> NetReply :=
  fun _ => mkNetReply 0 (Http 204 Otro).

(** The write is accepted, and the server is gone afterwards. *)
Definition se_cae_tras_escribir (i : nat) : NetReply :=
  match i with
  | 0 => mkNetReply 15 (Http 201 Otro)
  | _ => mkNetReply 0 (Transport (lit "Network Error"))
  end.

(** The write fails once in transport and is then accepted; the reads
    after it fail, first in transport and then with 500s. *)
Definition se_degrada_tras_escribir (i : nat) : NetReply :=
  match i with
  | 0 => mkNetReply 10 (Transport (lit "Network Error"))
  | 1 => mkNetReply 15 (Http 201 Otro)
  | 2 => mkNetReply 10 (Transport (lit "Network Error"))
  | _ => mkNetReply 40 (Http 500 Otro)
  end.

(** * Properties *)

(** ** Strings *)

Lemma trimStart_blank (s : jsstring) :
  forallb is_space s = true -> trimStart s = [].
Proof.
  induction s as [|c s IH]; simpl; [reflexivity|].
  intros H. apply andb_prop in H as [Hc Hs]. rewrite Hc. auto.
Qed.

Lemma trimStart_nil_blank (s : jsstring) :
  trimStart s = [] -> forallb is_space s = true.
Proof.
  induction s as [|c s IH]; simpl; [reflexivity|].
  destruct (is_space c); [auto | discriminate].
Qed.

Lemma trimStart_head (s : jsstring) c s' :
  trimStart s = c :: s' -> is_space c = false.
Proof.
  induction s as [|x s IH]; simpl; [discriminate|].
  destruct (is_space x) eqn:Hx; [exact IH|].
  intros E. injection E as -> _. exact Hx.
Qed.

(** A string trims to the empty string exactly when it is blank. *)
Lemma trim_blank (s : jsstring) :
  forallb is_space s = true <-> trim s = [].
Proof.
  unfold trim, trimEnd. split.
  - intros H. rewrite (trimStart_blank _ H). reflexivity.
  - intros H. apply trimStart_nil_blank.
    destruct (trimStart s) as [|c s'] eqn:E; [reflexivity|].
    exfalso.
    apply (f_equal (@rev N)) in H. rewrite rev_involutive in H.
    change (rev []) with (@nil N) in H.
    apply trimStart_nil_blank in H.
    rewrite forallb_forall in H.
    specialize (H c). rewrite <- in_rev in H.
    rewrite (trimStart_head _ _ _ E) in H.
    discriminate H. left. reflexivity.
Qed.

Lemma truthy_trim_blank (s : jsstring) :
  truthy (trim s) = negb (forallb is_space s).
Proof.
  destruct (forallb is_space s) eqn:E.
  - apply trim_blank in E. rewrite E. reflexivity.
  - destruct (trim s) eqn:T; [|reflexivity].
    apply trim_blank in T. congruence.
Qed.

(** ** The clock *)

Lemma limpiar_idem s : limpiar (limpiar s) = limpiar s.
Proof. reflexivity. Qed.

Lemma fold_limpiar (A : Type) (l : list A) s :
  fold_left (fun s' _ => limpiar s') l s =
  match l with [] => s | _ => limpiar s end.
Proof.
  destruct l as [|a l]; [reflexivity|]. simpl.
  generalize (limpiar s) (limpiar_idem s). clear s.
  induction l as [|b l IH]; intros s Hs; simpl; [reflexivity|].
  rewrite Hs. apply IH. exact Hs.
Qed.

(** [avanzar] in closed form: if some timer is due the message and the
    stored handle are reset; the timers not yet due stay. *)
Lemma avanzar_eq t s :
  avanzar t s =
  if existsb (due t) (timers s) then
    mkEstado (empleados s) (isLoading s) (esError s) [] (nombreInput s)
      None (N.max (clock s) t) (pendientes t s) (next_handle s) (sent s) (trace s)
  else
    mkEstado (empleados s) (isLoading s) (esError s) (mensajeEstado s) (nombreInput s)
      (mensajeTimeoutId s) (N.max (clock s) t) (pendientes t s)
      (next_handle s) (sent s) (trace s).
Proof.
  unfold avanzar. rewrite fold_limpiar. fold (pendientes t s).
  induction (timers s) as [|x l IH]; simpl; [reflexivity|].
  destruct (due t x); simpl; [reflexivity|]. exact IH.
Qed.

Lemma avanzar_marco t s : marco s (avanzar t s).
Proof. rewrite avanzar_eq. destruct existsb; repeat split. Qed.

Lemma avanzar_un_temporizador t s :
  un_temporizador s -> un_temporizador (avanzar t s).
Proof.
  rewrite avanzar_eq. unfold un_temporizador, pendientes.
  destruct (timers s) as [|[id d] [|? ?]]; simpl; try contradiction.
  - intros _. exact I.
  - destruct (due t (id, d)); simpl; auto.
Qed.

(** [mostrarMensaje] in closed form, on a state that keeps the timer
    discipline. *)
Lemma mostrarMensaje_exito m s :
  un_temporizador s ->
  mostrarMensaje m false s =
  mkEstado (empleados s) (isLoading s) false m (nombreInput s)
    (Some (next_handle s)) (clock s) [(next_handle s, (clock s + 4000)%N)]
    (S (next_handle s)) (sent s) (trace s).
Proof.
  unfold un_temporizador, mostrarMensaje, clearTimeout, setTimeout.
  destruct s as [e l er me ni mt c ts nh se tr]; simpl.
  destruct ts as [|[id d] [|? ?]]; simpl; try contradiction.
  - intros _. destruct mt; reflexivity.
  - intros ->. simpl. rewrite Nat.eqb_refl. reflexivity.
Qed.

Lemma mostrarMensaje_error m s :
  un_temporizador s ->
  mostrarMensaje m true s =
  mkEstado (empleados s) (isLoading s) true m (nombreInput s)
    (mensajeTimeoutId s) (clock s) [] (next_handle s) (sent s) (trace s).
Proof.
  unfold un_temporizador, mostrarMensaje, clearTimeout.
  destruct s as [e l er me ni mt c ts nh se tr]; simpl.
  destruct ts as [|[id d] [|? ?]]; simpl; try contradiction.
  - intros _. destruct mt; reflexivity.
  - intros ->. simpl. rewrite Nat.eqb_refl. reflexivity.
Qed.

Lemma mostrarMensaje_un_temporizador m error s :
  un_temporizador s -> un_temporizador (mostrarMensaje m error s).
Proof.
  intros H. destruct error.
  - rewrite mostrarMensaje_error by assumption. exact I.
  - rewrite mostrarMensaje_exito by assumption. reflexivity.
Qed.

Lemma avanzar_trace t s : trace (avanzar t s) = trace s.
Proof. rewrite avanzar_eq. destruct existsb; reflexivity. Qed.

Lemma avanzar_sent t s : sent (avanzar t s) = sent s.
Proof. rewrite avanzar_eq. destruct existsb; reflexivity. Qed.

Lemma avanzar_next_handle t s : next_handle (avanzar t s) = next_handle s.
Proof. rewrite avanzar_eq. destruct existsb; reflexivity. Qed.

Lemma avanzar_antes t s :
  forallb (fun timer => negb (due t timer)) (timers s) = true ->
  mensajeEstado (avanzar t s) = mensajeEstado s /\
  mensajeTimeoutId (avanzar t s) = mensajeTimeoutId s /\
  timers (avanzar t s) = timers s /\
  clock (avanzar t s) = N.max (clock s) t.
Proof.
  intros H. rewrite avanzar_eq.
  assert (Hex : existsb (due t) (timers s) = false).
  { induction (timers s) as [|x l IH]; simpl in *; [reflexivity|].
    apply andb_prop in H as [Hx Hl]. apply negb_true_iff in Hx.
    rewrite Hx. auto. }
  assert (Hp : pendientes t s = timers s).
  { unfold pendientes. induction (timers s) as [|x l IH]; simpl in *; [reflexivity|].
    apply andb_prop in H as [Hx Hl].
    apply orb_false_elim in Hex as [_ Hex].
    rewrite Hx, IH by assumption. reflexivity. }
  rewrite Hex. simpl. rewrite Hp. repeat split.
Qed.

Lemma avanzar_sin_temporizadores t s :
  timers s = [] ->
  mensajeEstado (avanzar t s) = mensajeEstado s /\ timers (avanzar t s) = [].
Proof.
  intros H. destruct (avanzar_antes t s) as (H1 & _ & H3 & _).
  - rewrite H. reflexivity.
  - rewrite H3. auto.
Qed.

Lemma mostrarMensaje_campos m error s :
  let s' := mostrarMensaje m error s in
  mensajeEstado s' = m /\ esError s' = error /\
  empleados s' = empleados s /\ isLoading s' = isLoading s /\
  nombreInput s' = nombreInput s /\
  sent s' = sent s /\ trace s' = trace s /\ clock s' = clock s.
Proof.
  unfold mostrarMensaje, clearTimeout, setTimeout.
  destruct (mensajeTimeoutId s), error; simpl; repeat split.
Qed.


(** ** The steps of the client *)

(** Reading a field through the setters. *)
Ltac campos :=
  cbn [empleados isLoading esError mensajeEstado nombreInput mensajeTimeoutId
       clock timers next_handle sent trace
       set_empleados set_isLoading set_esError set_mensajeEstado
       set_nombreInput set_mensajeTimeoutId set_clock set_timers
       set_next_handle set_sent anotar].

Lemma marco_refl s : marco s s.
Proof. repeat split. Qed.

Lemma marco_trans a b c : marco a b -> marco b c -> marco a c.
Proof.
  unfold marco. intros (H1 & H2 & H3 & H4) (K1 & K2 & K3 & K4).
  repeat split; congruence.
Qed.

Lemma crece_trans P s1 s2 s3 :
  crece P s1 s2 -> crece P s2 s3 -> crece P s1 s3.
Proof.
  intros (t1 & E1 & F1) (t2 & E2 & F2). exists (t1 ++ t2). split.
  - rewrite E2, E1, app_assoc. reflexivity.
  - apply Forall_app. auto.
Qed.

Lemma crece_impl (P Q : Evento -> Prop) s s' :
  (forall e, P e -> Q e) -> crece P s s' -> crece Q s s'.
Proof.
  intros H (tr & E & F). exists tr. split; [exact E|].
  eapply Forall_impl; [exact H | exact F].
Qed.

Lemma del_cliente_peticiones c tr :
  Forall (del_cliente c) tr -> Forall (eq c) (peticiones tr).
Proof.
  induction 1 as [|e tr He _ IH]; simpl; [constructor|].
  destruct e; simpl in *; auto.
Qed.

Lemma dormir_marco d s : marco s (dormir d s).
Proof.
  unfold dormir, transcurrir.
  eapply marco_trans; [|apply avanzar_marco]. repeat split.
Qed.

Lemma dormir_un_temporizador d s :
  un_temporizador s -> un_temporizador (dormir d s).
Proof. intros H. unfold dormir, transcurrir. apply avanzar_un_temporizador. exact H. Qed.

Lemma dormir_trace d s : trace (dormir d s) = trace s ++ [Espera (next_handle s) d].
Proof. unfold dormir, transcurrir. rewrite avanzar_trace. reflexivity. Qed.

Lemma dormir_sent d s : sent (dormir d s) = sent s.
Proof. unfold dormir, transcurrir. rewrite avanzar_sent. reflexivity. Qed.

Lemma dormir_next_handle d s : next_handle (dormir d s) = S (next_handle s).
Proof. unfold dormir, transcurrir. rewrite avanzar_next_handle. reflexivity. Qed.

Section Cliente.

Variable net : nat -> NetReply.

Lemma tras_peticion_marco c s : marco s (tras_peticion net c s).
Proof.
  unfold tras_peticion, transcurrir.
  eapply marco_trans; [|apply avanzar_marco]. repeat split.
Qed.

Lemma tras_peticion_un_temporizador c s :
  un_temporizador s -> un_temporizador (tras_peticion net c s).
Proof.
  intros H. unfold tras_peticion, transcurrir. apply avanzar_un_temporizador. exact H.
Qed.

Lemma tras_peticion_trace c s :
  trace (tras_peticion net c s) = trace s ++ [Peticion c].
Proof. unfold tras_peticion, transcurrir. rewrite avanzar_trace. reflexivity. Qed.

Lemma tras_peticion_sent c s : sent (tras_peticion net c s) = S (sent s).
Proof. unfold tras_peticion, transcurrir. rewrite avanzar_sent. reflexivity. Qed.

Lemma tras_peticion_next_handle c s :
  next_handle (tras_peticion net c s) = next_handle s.
Proof. unfold tras_peticion, transcurrir. rewrite avanzar_next_handle. reflexivity. Qed.

(** ** The retrying client *)

Variable u : jsstring.
Variable options : Options.

Let cfg := spread u options.

(** One unfolding of the recursion, as the source reads. *)
Lemma fetchWithRetry_eq retries s :
  fetchWithRetry net u options retries s =
  match settle (net (sent s)) with
  | Ok response => (Ok response, tras_peticion net cfg s)
  | Throw error =>
      if retries <? MAX_RETRIES then
        fetchWithRetry net u options (S retries)
          (dormir (backoff retries)
             (anotar (Aviso (aviso retries (backoff retries)) error)
                (tras_peticion net cfg s)))
      else (Throw error, tras_peticion net cfg s)
  end.
Proof.
  rewrite fetchWithRetry_equation_1. unfold axios. fold cfg.
  destruct (settle (net (sent s))) as [response|error];
    simp fetchWithRetry; [reflexivity|].
  destruct (lt_dec retries MAX_RETRIES) as [Hlt|Hge]; simp fetchWithRetry.
  - apply Nat.ltb_lt in Hlt. rewrite Hlt. reflexivity.
  - apply Nat.ltb_nlt in Hge. rewrite Hge. reflexivity.
Qed.

(** Whatever relation between states is transitive and holds across a
    request, a warning and a delay holds across the whole call. *)
Lemma fetchWithRetry_pasos (P : Estado -> Estado -> Prop) :
  (forall a b c, P a b -> P b c -> P a c) ->
  (forall s, P s (tras_peticion net cfg s)) ->
  (forall m e s, P s (anotar (Aviso m e) s)) ->
  (forall d s, P s (dormir d s)) ->
  forall retries s r s',
    fetchWithRetry net u options retries s = (r, s') -> P s s'.
Proof.
  intros Htrans Hpet Haviso Hdormir retries.
  remember (MAX_RETRIES - retries) as k eqn:Hk.
  revert retries Hk.
  induction k as [|k IH]; intros retries Hk s r s';
    rewrite fetchWithRetry_eq;
    destruct (settle (net (sent s))) as [response|error];
    try (intros [= <- <-]; apply Hpet);
    destruct (Nat.ltb_spec retries MAX_RETRIES) as [Hlt|Hge];
    try lia; try (intros [= <- <-]; apply Hpet).
  intros E.
  eapply Htrans; [apply Hpet|].
  eapply Htrans; [apply Haviso|].
  eapply Htrans; [apply Hdormir|].
  eapply IH; [|exact E]. lia.
Qed.

Lemma fetchWithRetry_marco retries s r s' :
  fetchWithRetry net u options retries s = (r, s') -> marco s s'.
Proof.
  apply fetchWithRetry_pasos with (P := marco).
  - exact marco_trans.
  - intros. apply tras_peticion_marco.
  - intros. repeat split.
  - intros. apply dormir_marco.
Qed.

Lemma fetchWithRetry_un_temporizador retries s r s' :
  fetchWithRetry net u options retries s = (r, s') ->
  un_temporizador s -> un_temporizador s'.
Proof.
  intros E H.
  refine (fetchWithRetry_pasos
            (fun a b => un_temporizador a -> un_temporizador b)
            _ _ _ _ retries s r s' E H); auto.
  - intros. apply tras_peticion_un_temporizador. assumption.
  - intros. apply dormir_un_temporizador. assumption.
Qed.

(** The client adds to the trace its own request, warnings and delays,
    and nothing else. *)
Lemma fetchWithRetry_crece retries s r s' :
  fetchWithRetry net u options retries s = (r, s') ->
  crece (del_cliente cfg) s s'.
Proof.
  apply fetchWithRetry_pasos with (P := crece (del_cliente cfg)).
  - apply crece_trans.
  - intros s0. exists [Peticion cfg]. split; [apply tras_peticion_trace|].
    constructor; [reflexivity | constructor].
  - intros m e s0. exists [Aviso m e]. split; [reflexivity|].
    constructor; [exact I | constructor].
  - intros d s0. exists [Espera (next_handle s0) d].
    split; [apply dormir_trace|]. constructor; [exact I | constructor].
Qed.

(** The first thing the call does is to issue its request. *)
Lemma fetchWithRetry_primera retries s r s' :
  fetchWithRetry net u options retries s = (r, s') ->
  exists tr,
    trace s' = trace s ++ Peticion cfg :: tr /\ Forall (del_cliente cfg) tr.
Proof.
  rewrite fetchWithRetry_eq.
  destruct (settle (net (sent s))) as [response|error].
  - intros [= <- <-]. exists []. split; [apply tras_peticion_trace | constructor].
  - destruct (retries <? MAX_RETRIES).
    + intros E. apply fetchWithRetry_crece in E. destruct E as (tr & E & F).
      rewrite E, dormir_trace. campos. rewrite tras_peticion_trace.
      eexists. split.
      * rewrite <- !app_assoc. simpl. reflexivity.
      * constructor; [exact I|]. constructor; [exact I | exact F].
    + intros [= <- <-]. exists []. split; [apply tras_peticion_trace | constructor].
Qed.

(** *** A run of failures *)

Lemma tras_fallos_cons e resto retries s :
  tras_fallos net cfg (e :: resto) retries s =
  tras_fallos net cfg resto (S retries)
    (dormir (backoff retries)
       (anotar (Aviso (aviso retries (backoff retries)) e) (tras_peticion net cfg s))).
Proof. unfold tras_fallos at 1. fold tras_fallos. reflexivity. Qed.

Lemma tras_fallos_sent errores : forall retries s,
  sent (tras_fallos net cfg errores retries s) = sent s + List.length errores.
Proof.
  induction errores as [|e resto IH]; intros retries s; [simpl; lia|].
  rewrite tras_fallos_cons, IH, dormir_sent. campos.
  rewrite tras_peticion_sent. cbn [List.length]. lia.
Qed.

Lemma tras_fallos_next_handle errores : forall retries s,
  next_handle (tras_fallos net cfg errores retries s) =
  next_handle s + List.length errores.
Proof.
  induction errores as [|e resto IH]; intros retries s; [simpl; lia|].
  rewrite tras_fallos_cons, IH, dormir_next_handle. campos.
  rewrite tras_peticion_next_handle. cbn [List.length]. lia.
Qed.

Lemma tras_fallos_trace errores : forall retries s,
  trace (tras_fallos net cfg errores retries s) =
  trace s ++ reintentos cfg errores retries (next_handle s).
Proof.
  induction errores as [|e resto IH]; intros retries s.
  - simpl. rewrite app_nil_r. reflexivity.
  - rewrite tras_fallos_cons. cbn [reintentos].
    rewrite IH, dormir_trace, dormir_next_handle. campos.
    rewrite tras_peticion_trace, tras_peticion_next_handle.
    rewrite <- !app_assoc. reflexivity.
Qed.

(** While retries remain, each failure is answered by a warning, a delay
    and one more attempt. *)
Lemma fetchWithRetry_fallos errores : forall retries s,
  retries + List.length errores <= MAX_RETRIES ->
  fallan net (sent s) errores ->
  fetchWithRetry net u options retries s =
  fetchWithRetry net u options (retries + List.length errores)
    (tras_fallos net cfg errores retries s).
Proof.
  induction errores as [|e resto IH]; intros retries s Hle Hf.
  - simpl. rewrite Nat.add_0_r. reflexivity.
  - destruct Hf as [He Hf]. cbn [List.length] in *.
    rewrite tras_fallos_cons, fetchWithRetry_eq, He.
    destruct (Nat.ltb_spec retries MAX_RETRIES) as [_|Hge]; [|lia].
    rewrite IH.
    + f_equal. lia.
    + lia.
    + rewrite dormir_sent. campos. rewrite tras_peticion_sent. exact Hf.
Qed.

(** The attempt that succeeds ends the call with its response. *)
Lemma fetchWithRetry_exito retries s response :
  settle (net (sent s)) = Ok response ->
  fetchWithRetry net u options retries s = (Ok response, tras_peticion net cfg s).
Proof. intros H. rewrite fetchWithRetry_eq, H. reflexivity. Qed.

(** The attempt that fails with no retry left ends the call with its error. *)
Lemma fetchWithRetry_agotado retries s error :
  MAX_RETRIES <= retries ->
  settle (net (sent s)) = Throw error ->
  fetchWithRetry net u options retries s = (Throw error, tras_peticion net cfg s).
Proof.
  intros Hge H. rewrite fetchWithRetry_eq, H.
  destruct (Nat.ltb_spec retries MAX_RETRIES) as [Hlt|_]; [lia | reflexivity].
Qed.

(** The whole call when the attempt after the failures succeeds. *)
Lemma fetchWithRetry_tras_exito s errores response :
  List.length errores <= MAX_RETRIES ->
  fallan net (sent s) errores ->
  settle (net (sent s + List.length errores)) = Ok response ->
  fetchWithRetry net u options 0 s =
  (Ok response, tras_peticion net cfg (tras_fallos net cfg errores 0 s)).
Proof.
  intros Hk Hf Hok.
  rewrite (fetchWithRetry_fallos errores 0 s) by (simpl; assumption).
  apply fetchWithRetry_exito. rewrite tras_fallos_sent. exact Hok.
Qed.

(** The whole call when the attempt after [MAX_RETRIES] failures fails. *)
Lemma fetchWithRetry_tras_agotar s e1 e2 e3 e4 :
  fallan net (sent s) [e1; e2; e3; e4] ->
  fetchWithRetry net u options 0 s =
  (Throw e4, tras_peticion net cfg (tras_fallos net cfg [e1; e2; e3] 0 s)).
Proof.
  intros (H1 & H2 & H3 & H4 & _).
  rewrite (fetchWithRetry_fallos [e1; e2; e3] 0 s).
  - apply fetchWithRetry_agotado; [apply Nat.le_refl|].
    rewrite tras_fallos_sent.
    replace (sent s + List.length [e1; e2; e3]) with (S (S (S (sent s))))
      by (simpl; lia).
    exact H4.
  - apply Nat.le_refl.
  - cbn [fallan]. auto.
Qed.

End Cliente.

(** The call reads the replies from the one in turn on, and no other. *)
Lemma fetchWithRetry_ext (net net' : nat -> NetReply) u options retries s :
  (forall i, sent s <= i -> net i = net' i) ->
  fetchWithRetry net u options retries s = fetchWithRetry net' u options retries s.
Proof.
  remember (MAX_RETRIES - retries) as k eqn:Hk.
  revert retries Hk s.
  assert (Hp : forall s, (forall i, sent s <= i -> net i = net' i) ->
                 tras_peticion net (spread u options) s =
                 tras_peticion net' (spread u options) s).
  { intros s H. unfold tras_peticion. rewrite (H (sent s)) by apply Nat.le_refl.
    reflexivity. }
  induction k as [|k IH]; intros retries Hk s H;
    rewrite (fetchWithRetry_eq net), (fetchWithRetry_eq net');
    rewrite <- (Hp s H), <- (H (sent s)) by apply Nat.le_refl;
    destruct (settle (net (sent s))) as [response|error];
    try reflexivity;
    destruct (Nat.ltb_spec retries MAX_RETRIES); try lia; try reflexivity.
  apply IH; [lia|].
  intros i Hi. apply H. rewrite dormir_sent in Hi.
  cbn [sent anotar] in Hi. rewrite tras_peticion_sent in Hi. lia.
Qed.



(** ** Sorting the roster *)

Lemma insert_perm (A : Type) (cmp : A -> A -> number) x l :
  Permutation (x :: l) (insert cmp x l).
Proof.
  induction l as [|y l IH]; simpl; [reflexivity|].
  destruct (sort_compare cmp x y <=? 0)%Z; [reflexivity|].
  rewrite perm_swap. apply perm_skip. exact IH.
Qed.

Lemma sort_perm (A : Type) (cmp : A -> A -> number) l :
  Permutation l (sort cmp l).
Proof.
  induction l as [|x l IH]; simpl; [reflexivity|].
  rewrite <- insert_perm. apply perm_skip. exact IH.
Qed.

Lemma sort_length (A : Type) (cmp : A -> A -> number) l :
  List.length (sort cmp l) = List.length l.
Proof. symmetry. apply Permutation_length, sort_perm. Qed.

(** A comparator that never tells two elements apart leaves the array as
    it is. *)
Lemma sort_indistinct (A : Type) (cmp : A -> A -> number) l :
  (forall x y, sort_compare cmp x y = 0%Z) -> sort cmp l = l.
Proof.
  intros H. induction l as [|x l IH]; simpl; [reflexivity|].
  rewrite IH. destruct l as [|y l]; simpl; [reflexivity|].
  rewrite H. reflexivity.
Qed.

Lemma por_id_clave a b :
  tiene_id a = true -> tiene_id b = true ->
  sort_compare por_id a b = (clave a - clave b)%Z.
Proof.
  unfold tiene_id, clave, sort_compare, por_id.
  destruct (id_empleado a), (id_empleado b); simpl; try discriminate.
  reflexivity.
Qed.

Lemma insert_sorted x l :
  tiene_id x = true -> forallb tiene_id l = true ->
  StronglySorted por_clave l -> StronglySorted por_clave (insert por_id x l).
Proof.
  intros Hx. induction l as [|y l IH]; intros Hl Hs; simpl.
  - constructor; constructor.
  - simpl in Hl. apply andb_prop in Hl as [Hy Hl].
    rewrite (por_id_clave x y Hx Hy).
    inversion Hs as [|? ? Hs' Hall]; subst.
    destruct (Z.leb_spec (clave x - clave y) 0) as [Hle|Hgt].
    + constructor; [exact Hs|].
      constructor; [unfold por_clave; lia|].
      eapply Forall_impl; [|exact Hall].
      unfold por_clave. intros; lia.
    + constructor; [apply IH; assumption|].
      eapply Permutation_Forall; [apply insert_perm|].
      constructor; [unfold por_clave; lia | exact Hall].
Qed.

(** With numeric ids the result is in ascending order of id. *)
Lemma sort_sorted l :
  forallb tiene_id l = true -> StronglySorted por_clave (sort por_id l).
Proof.
  induction l as [|x l IH]; simpl; intros H; [constructor|].
  apply andb_prop in H as [Hx Hl].
  apply insert_sorted; auto.
  rewrite forallb_forall in *. intros y Hy. apply Hl.
  eapply Permutation_in; [symmetry; apply sort_perm | exact Hy].
Qed.

(** Records with the same id keep the order in which they arrived. *)
Lemma sort_stable l k :
  forallb tiene_id l = true ->
  filter (fun e => (clave e =? k)%Z) (sort por_id l) =
  filter (fun e => (clave e =? k)%Z) l.
Proof.
  induction l as [|x l IH]; simpl; intros H; [reflexivity|].
  apply andb_prop in H as [Hx Hl]. rewrite <- (IH Hl).
  assert (Hs : forallb tiene_id (sort por_id l) = true).
  { rewrite forallb_forall in *. intros y Hy. apply Hl.
    eapply Permutation_in; [symmetry; apply sort_perm | exact Hy]. }
  clear IH Hl. induction (sort por_id l) as [|y l' IH]; simpl; [reflexivity|].
  simpl in Hs. apply andb_prop in Hs as [Hy Hl'].
  rewrite (por_id_clave x y Hx Hy).
  destruct (Z.leb_spec (clave x - clave y) 0) as [Hle|Hgt]; simpl; [reflexivity|].
  rewrite (IH Hl').
  destruct (Z.eqb_spec (clave x) k), (Z.eqb_spec (clave y) k); try reflexivity.
  lia.
Qed.


(** Ascending order and stability leave no choice: a list in ascending
    order of id that keeps, id by id, the records in their order of arrival
    is the one [sort] computes, whatever the algorithm behind it. *)
Lemma sorted_stable_unique l1 : forall l2,
  StronglySorted por_clave l1 -> StronglySorted por_clave l2 ->
  (forall k, filter (fun e => (clave e =? k)%Z) l1 =
             filter (fun e => (clave e =? k)%Z) l2) ->
  l1 = l2.
Proof.
  assert (Hnil : forall y l, StronglySorted por_clave (y :: l) ->
            forall x, (clave x < clave y)%Z ->
            filter (fun e => (clave e =? clave x)%Z) (y :: l) = []).
  { intros y l Hs x Hlt. inversion Hs as [|? ? _ Hall]; subst.
    assert (Hge : Forall (fun e => (clave y <= clave e)%Z) (y :: l))
      by (constructor; [lia | exact Hall]).
    clear Hs Hall. induction Hge as [|e l' He _ IH]; simpl; [reflexivity|].
    destruct (Z.eqb_spec (clave e) (clave x)); [lia | exact IH]. }
  induction l1 as [|x l1 IH]; intros [|y l2] H1 H2 Hf.
  - reflexivity.
  - specialize (Hf (clave y)). simpl in Hf. rewrite Z.eqb_refl in Hf. discriminate.
  - specialize (Hf (clave x)). simpl in Hf. rewrite Z.eqb_refl in Hf. discriminate.
  - assert (Hk : clave x = clave y).
    { destruct (Z.lt_trichotomy (clave x) (clave y)) as [Hlt|[Heq|Hgt]]; [|exact Heq|].
      - pose proof (Hf (clave x)) as Hx. rewrite (Hnil y l2 H2 x Hlt) in Hx.
        simpl in Hx. rewrite Z.eqb_refl in Hx. discriminate.
      - pose proof (Hf (clave y)) as Hy. rewrite (Hnil x l1 H1 y Hgt) in Hy.
        simpl in Hy. rewrite Z.eqb_refl in Hy. discriminate. }
    pose proof (Hf (clave x)) as Hx. simpl in Hx.
    rewrite Z.eqb_refl, <- Hk, Z.eqb_refl in Hx. injection Hx as <- Hx.
    f_equal. inversion H1; inversion H2; subst. apply IH; try assumption.
    intros k. specialize (Hf k). simpl in Hf.
    destruct (Z.eqb_spec (clave x) k); [|exact Hf].
    injection Hf as Hf. exact Hf.
Qed.

Lemma sort_unique l l' :
  forallb tiene_id l = true ->
  StronglySorted por_clave l' ->
  (forall k, filter (fun e => (clave e =? k)%Z) l' =
             filter (fun e => (clave e =? k)%Z) l) ->
  l' = sort por_id l.
Proof.
  intros Hid Hs Hst. apply sorted_stable_unique.
  - exact Hs.
  - apply sort_sorted. exact Hid.
  - intros k. rewrite Hst, sort_stable by exact Hid. reflexivity.
Qed.

(** ** Runs of the controller *)

Lemma recarga_fallida_campos error s1 :
  empleados (recarga_fallida error s1) = empleados s1 /\
  esError (recarga_fallida error s1) = true /\
  isLoading (recarga_fallida error s1) = false /\
  mensajeEstado (recarga_fallida error s1) = ERROR_CONECTAR /\
  nombreInput (recarga_fallida error s1) = nombreInput s1 /\
  sent (recarga_fallida error s1) = sent s1 /\
  trace (recarga_fallida error s1) = trace s1 ++ [Fallo error].
Proof.
  unfold recarga_fallida.
  destruct (mostrarMensaje_campos ERROR_CONECTAR true (anotar (Fallo error) s1))
    as (H1 & H2 & H3 & H4 & H5 & H6 & H7 & H8).
  campos. repeat split; assumption.
Qed.

Lemma recarga_fallida_un_temporizador error s :
  un_temporizador s -> un_temporizador (recarga_fallida error s).
Proof.
  intros H.
  change (un_temporizador (anotar (Fallo error) s)) in H.
  exact (mostrarMensaje_un_temporizador ERROR_CONECTAR true _ H).
Qed.

Section Controlador.

Variable net : nat -> NetReply.

(** [obtenerEmpleados] by cases on what the client and the body give. *)
Lemma obtenerEmpleados_eq s :
  obtenerEmpleados net s =
  match fetchWithRetry net (API_URL ++ lit "/empleado") GET_empleado 0
          (al_recargar s) with
  | (Ok response, s1) =>
      match data response with
      | Arreglo filas => (Ok tt, recarga_lograda filas s1)
      | Otro => (Ok tt, recarga_fallida TypeError s1)
      end
  | (Throw error, s1) => (Ok tt, recarga_fallida error s1)
  end.
Proof.
  unfold obtenerEmpleados, bind, exec, finally, try_catch, data_sort, ret, throw.
  fold (al_recargar s).
  destruct (fetchWithRetry _ _ _ _ _) as [[response|error] s1]; [|reflexivity].
  destruct (data response); reflexivity.
Qed.

(** The reload always completes, and never rejects. *)
Lemma obtenerEmpleados_termina s :
  exists s', obtenerEmpleados net s = (Ok tt, s').
Proof.
  rewrite obtenerEmpleados_eq.
  destruct (fetchWithRetry _ _ _ _ _) as [[response|error] s1]; [|eauto].
  destruct (data response); eauto.
Qed.

(** [agregarEmpleado] by cases on the input and on what the client gives. *)
Lemma agregarEmpleado_eq s :
  agregarEmpleado net s =
  if forallb is_space (nombreInput s) then
    (Ok tt, mostrarMensaje NOMBRE_VACIO true s)
  else
    match fetchWithRetry net (API_URL ++ lit "/empleado")
            (POST_empleado (trim (nombreInput s))) 0 (set_isLoading true s) with
    | (Ok _, s1) =>
        let (r, s2) :=
          obtenerEmpleados net
            (mostrarMensaje (EMPLEADO_AGREGADO (trim (nombreInput s))) false
               (set_nombreInput [] s1)) in
        (r, set_isLoading false s2)
    | (Throw _, s1) =>
        (Ok tt, set_isLoading false (mostrarMensaje ERROR_AGREGAR true s1))
    end.
Proof.
  unfold agregarEmpleado. rewrite truthy_trim_blank, negb_involutive.
  destruct (forallb is_space (nombreInput s)); [reflexivity|].
  unfold bind, exec, finally, try_catch.
  destruct (fetchWithRetry _ _ _ _ _) as [[response|error] s1]; [|reflexivity].
  destruct (obtenerEmpleados_termina
              (mostrarMensaje (EMPLEADO_AGREGADO (trim (nombreInput s))) false
                 (set_nombreInput [] s1))) as [s2 E].
  rewrite E. reflexivity.
Qed.

Lemma agregarEmpleado_termina s :
  exists s', agregarEmpleado net s = (Ok tt, s').
Proof.
  rewrite agregarEmpleado_eq.
  destruct (forallb _ _); [eauto|].
  destruct (fetchWithRetry _ _ _ _ _) as [[response|error] s1]; [|eauto].
  destruct (obtenerEmpleados_termina
              (mostrarMensaje (EMPLEADO_AGREGADO (trim (nombreInput s))) false
                 (set_nombreInput [] s1))) as [s2 E].
  rewrite E. eauto.
Qed.

Lemma obtenerEmpleados_un_temporizador s r s' :
  obtenerEmpleados net s = (r, s') ->
  un_temporizador s -> un_temporizador s'.
Proof.
  rewrite obtenerEmpleados_eq. intros E H.
  destruct (fetchWithRetry _ _ _ _ _) as [[response|error] s1] eqn:F;
    apply fetchWithRetry_un_temporizador in F; [| exact H | | exact H].
  - destruct (data response); injection E as _ <-.
    + unfold recarga_lograda.
      exact (mostrarMensaje_un_temporizador _ false (set_empleados _ s1) F).
    + apply recarga_fallida_un_temporizador. exact F.
  - injection E as _ <-. apply recarga_fallida_un_temporizador. exact F.
Qed.

Lemma agregarEmpleado_un_temporizador s r s' :
  agregarEmpleado net s = (r, s') ->
  un_temporizador s -> un_temporizador s'.
Proof.
  rewrite agregarEmpleado_eq. intros E H.
  destruct (forallb _ _).
  - injection E as _ <-. apply mostrarMensaje_un_temporizador. exact H.
  - destruct (fetchWithRetry _ _ _ _ _) as [[response|error] s1] eqn:F;
      apply fetchWithRetry_un_temporizador in F; try exact H.
    + destruct (obtenerEmpleados net _) as [r2 s2] eqn:G.
      injection E as _ <-.
      apply obtenerEmpleados_un_temporizador in G; [exact G|].
      exact (mostrarMensaje_un_temporizador _ false (set_nombreInput [] s1) F).
    + injection E as _ <-.
      exact (mostrarMensaje_un_temporizador ERROR_AGREGAR true s1 F).
Qed.

(** The timer discipline holds in every state the component reaches. *)
Lemma alcanzable_un_temporizador s :
  alcanzable net s -> un_temporizador s.
Proof.
  induction 1 as [r s' E | s r s' _ IH E | s r s' _ IH E | s v _ IH | s d _ IH].
  - apply (obtenerEmpleados_un_temporizador _ _ _ E). exact I.
  - apply (obtenerEmpleados_un_temporizador _ _ _ E). exact IH.
  - apply (agregarEmpleado_un_temporizador _ _ _ E). exact IH.
  - exact IH.
  - apply avanzar_un_temporizador. exact IH.
Qed.

(** A reload whose request is answered, after at most [MAX_RETRIES]
    failures, by a 2xx response carrying an array. *)
Lemma obtenerEmpleados_exito s errores st filas :
  List.length errores <= MAX_RETRIES ->
  fallan net (sent s) errores ->
  outcome (net (sent s + List.length errores)) = Http st (Arreglo filas) ->
  validateStatus st = true ->
  exists s1,
    marco (al_recargar s) s1 /\
    obtenerEmpleados net s = (Ok tt, recarga_lograda filas s1).
Proof.
  intros Hk Hf Hout Hst.
  assert (Hok : settle (net (sent (al_recargar s) + List.length errores)) =
                Ok (mkResponse st (Arreglo filas))).
  { unfold settle, al_recargar. campos. rewrite Hout, Hst. reflexivity. }
  pose proof (fetchWithRetry_tras_exito net (API_URL ++ lit "/empleado") GET_empleado
                (al_recargar s) errores _ Hk Hf Hok) as E.
  eexists. split.
  - eapply fetchWithRetry_marco; exact E.
  - rewrite obtenerEmpleados_eq, E. reflexivity.
Qed.

(** A reload whose request fails 4 times in a row. *)
Lemma obtenerEmpleados_agotado s e1 e2 e3 e4 :
  fallan net (sent s) [e1; e2; e3; e4] ->
  exists s1,
    marco (al_recargar s) s1 /\ sent s1 = sent s + 4 /\
    obtenerEmpleados net s = (Ok tt, recarga_fallida e4 s1).
Proof.
  intros Hf.
  assert (Hf0 : fallan net (sent (al_recargar s)) [e1; e2; e3; e4]) by exact Hf.
  pose proof (fetchWithRetry_tras_agotar net (API_URL ++ lit "/empleado") GET_empleado
                (al_recargar s) e1 e2 e3 e4 Hf0) as E.
  eexists. split; [|split].
  - eapply fetchWithRetry_marco; exact E.
  - rewrite tras_peticion_sent, tras_fallos_sent. unfold al_recargar. campos.
    cbn [List.length]. lia.
  - rewrite obtenerEmpleados_eq, E. reflexivity.
Qed.

(** A submission whose request fails 4 times in a row. *)
Lemma agregarEmpleado_agotado s e1 e2 e3 e4 :
  forallb is_space (nombreInput s) = false ->
  fallan net (sent s) [e1; e2; e3; e4] ->
  exists s1,
    marco (set_isLoading true s) s1 /\ sent s1 = sent s + 4 /\
    agregarEmpleado net s =
    (Ok tt, set_isLoading false (mostrarMensaje ERROR_AGREGAR true s1)).
Proof.
  intros Hb Hf.
  assert (Hf0 : fallan net (sent (set_isLoading true s)) [e1; e2; e3; e4]) by exact Hf.
  pose proof (fetchWithRetry_tras_agotar net (API_URL ++ lit "/empleado")
                (POST_empleado (trim (nombreInput s))) (set_isLoading true s)
                e1 e2 e3 e4 Hf0) as E.
  eexists. split; [|split].
  - eapply fetchWithRetry_marco; exact E.
  - rewrite tras_peticion_sent, tras_fallos_sent. campos. cbn [List.length]. lia.
  - rewrite agregarEmpleado_eq, Hb, E. reflexivity.
Qed.

(** The write of a submission accepted after some failures. *)
Lemma escribir_aceptado s errores st body :
  List.length errores <= MAX_RETRIES ->
  fallan net (sent s) errores ->
  outcome (net (sent s + List.length errores)) = Http st body ->
  validateStatus st = true ->
  exists s1,
    sent s1 = sent s + List.length errores + 1 /\
    fetchWithRetry net (API_URL ++ lit "/empleado")
      (POST_empleado (trim (nombreInput s))) 0 (set_isLoading true s) =
    (Ok (mkResponse st body), s1).
Proof.
  intros Hk Hf Hout Hst.
  assert (Hf0 : fallan net (sent (set_isLoading true s)) errores) by exact Hf.
  assert (Hok : settle (net (sent (set_isLoading true s) + List.length errores)) =
                Ok (mkResponse st body)).
  { unfold settle. campos. rewrite Hout, Hst. reflexivity. }
  pose proof (fetchWithRetry_tras_exito net (API_URL ++ lit "/empleado")
                (POST_empleado (trim (nombreInput s))) (set_isLoading true s)
                errores _ Hk Hf0 Hok) as E.
  eexists. split; [|exact E].
  rewrite tras_peticion_sent, tras_fallos_sent. campos. lia.
Qed.

(** A submission whose write is accepted and whose reload fails 4 times
    in a row ends as the failed reload does. *)
Lemma agregarEmpleado_recarga_agotada s errores st body e1 e2 e3 e4 :
  forallb is_space (nombreInput s) = false ->
  List.length errores <= MAX_RETRIES ->
  fallan net (sent s) errores ->
  outcome (net (sent s + List.length errores)) = Http st body ->
  validateStatus st = true ->
  fallan net (sent s + List.length errores + 1) [e1; e2; e3; e4] ->
  exists s2,
    agregarEmpleado net s = (Ok tt, set_isLoading false (recarga_fallida e4 s2)).
Proof.
  intros Hb Hk Hf Hout Hst Hf2.
  destruct (escribir_aceptado s errores st body Hk Hf Hout Hst) as (s1 & Hs1 & E).
  destruct (mostrarMensaje_campos (EMPLEADO_AGREGADO (trim (nombreInput s))) false
              (set_nombreInput [] s1)) as (_ & _ & _ & _ & _ & Hsx & _).
  cbn [sent set_nombreInput] in Hsx.
  rewrite <- Hs1, <- Hsx in Hf2.
  destruct (obtenerEmpleados_agotado _ e1 e2 e3 e4 Hf2) as (s2 & _ & _ & G).
  exists s2. rewrite agregarEmpleado_eq, Hb, E, G. reflexivity.
Qed.

(** What a reload adds to the trace: the events of its client call and,
    on the failure path, the logged error as the last one. *)
Lemma obtenerEmpleados_traza s r s' :
  obtenerEmpleados net s = (r, s') ->
  exists tr,
    Forall (del_cliente leer) tr /\
    ((esError s' = false /\ trace s' = trace s ++ tr) \/
     (esError s' = true /\ empleados s' = [] /\ isLoading s' = false /\
      mensajeEstado s' = ERROR_CONECTAR /\
      exists error, trace s' = trace s ++ tr ++ [Fallo error])).
Proof.
  rewrite obtenerEmpleados_eq.
  destruct (fetchWithRetry _ _ _ _ _) as [[response|error] s1] eqn:F;
    pose proof (fetchWithRetry_crece _ _ _ _ _ _ _ F) as (tr & E & Htr);
    pose proof (fetchWithRetry_marco _ _ _ _ _ _ _ F) as (He & _).
  - destruct (data response); intros [= _ <-]; exists tr; (split; [exact Htr|]).
    + left. unfold recarga_lograda.
      destruct (mostrarMensaje_campos
                  (LISTA_ACTUALIZADA (List.length (sort por_id filas))) false
                  (set_empleados (sort por_id filas) s1))
        as (_ & H2 & _ & _ & _ & _ & H7 & _).
      campos. rewrite H2, H7. split; [reflexivity | exact E].
    + right. destruct (recarga_fallida_campos TypeError s1)
        as (H1 & H2 & H3 & H4 & _ & _ & H7).
      rewrite H1, H2, H3, H4, H7, He, E. repeat (split; [reflexivity|]).
      eexists. rewrite <- app_assoc. reflexivity.
  - intros [= _ <-]. exists tr. split; [exact Htr|].
    right. destruct (recarga_fallida_campos error s1)
      as (H1 & H2 & H3 & H4 & _ & _ & H7).
    rewrite H1, H2, H3, H4, H7, He, E. repeat (split; [reflexivity|]).
    eexists. rewrite <- app_assoc. reflexivity.
Qed.

End Controlador.

(** A reload reads the replies from the one in turn on, and no other. *)
Lemma obtenerEmpleados_ext (net net' : nat -> NetReply) s :
  (forall i, sent s <= i -> net i = net' i) ->
  obtenerEmpleados net s = obtenerEmpleados net' s.
Proof.
  intros H. rewrite !obtenerEmpleados_eq.
  rewrite (fetchWithRetry_ext net net') by exact H. reflexivity.
Qed.

Lemma obtenerEmpleados_nombreInput net s r s' :
  obtenerEmpleados net s = (r, s') -> nombreInput s' = nombreInput s.
Proof.
  rewrite obtenerEmpleados_eq.
  destruct (fetchWithRetry _ _ _ _ _) as [[response|error] s1] eqn:F;
    pose proof (fetchWithRetry_marco _ _ _ _ _ _ _ F) as (_ & _ & _ & Hn).
  - destruct (data response); intros [= _ <-].
    + unfold recarga_lograda.
      destruct (mostrarMensaje_campos
                  (LISTA_ACTUALIZADA (List.length (sort por_id filas))) false
                  (set_empleados (sort por_id filas) s1))
        as (_ & _ & _ & _ & H5 & _).
      campos. rewrite H5. exact Hn.
    + destruct (recarga_fallida_campos TypeError s1) as (_ & _ & _ & _ & H5 & _).
      rewrite H5. exact Hn.
  - intros [= _ <-].
    destruct (recarga_fallida_campos error s1) as (_ & _ & _ & _ & H5 & _).
    rewrite H5. exact Hn.
Qed.

Lemma peticiones_app tr1 tr2 :
  peticiones (tr1 ++ tr2) = peticiones tr1 ++ peticiones tr2.
Proof. unfold peticiones. apply flat_map_app. Qed.

(** What a submission with a name adds to the trace: first its write
    request; every request after it is that one again or the read of the
    reload. *)
Lemma agregarEmpleado_traza net s r s' :
  forallb is_space (nombreInput s) = false ->
  agregarEmpleado net s = (r, s') ->
  exists tr,
    trace s' = trace s ++ Peticion (escribir (trim (nombreInput s))) :: tr /\
    Forall (fun c => c = escribir (trim (nombreInput s)) \/ c = leer) (peticiones tr).
Proof.
  intros Hb. rewrite agregarEmpleado_eq, Hb.
  destruct (fetchWithRetry _ _ _ _ _) as [[response|error] s1] eqn:F;
    pose proof (fetchWithRetry_primera _ _ _ _ _ _ _ F) as (tr1 & E1 & F1);
    apply del_cliente_peticiones in F1;
    fold (escribir (trim (nombreInput s))) in E1, F1.
  - destruct (obtenerEmpleados net _) as [r2 s2] eqn:G.
    intros [= _ <-].
    destruct (obtenerEmpleados_traza _ _ _ _ G) as (tr2 & F2 & H).
    apply del_cliente_peticiones in F2.
    destruct (mostrarMensaje_campos (EMPLEADO_AGREGADO (trim (nombreInput s))) false
                (set_nombreInput [] s1)) as (_ & _ & _ & _ & _ & _ & H7 & _).
    rewrite H7 in H. campos. cbn [trace set_nombreInput set_isLoading] in H, E1.
    assert (Hall : forall extra, peticiones extra = [] ->
              Forall (fun c => c = escribir (trim (nombreInput s)) \/ c = leer)
                (peticiones (tr1 ++ tr2 ++ extra))).
    { intros extra Hx. rewrite !peticiones_app, Hx, app_nil_r.
      apply Forall_app. split.
      - eapply Forall_impl; [|exact F1]. intros c <-. left. reflexivity.
      - eapply Forall_impl; [|exact F2]. intros c <-. right. reflexivity. }
    destruct H as [[_ H]|(_ & _ & _ & _ & e & H)].
    + exists (tr1 ++ tr2 ++ []). split.
      * rewrite H, E1, app_nil_r, <- app_assoc. reflexivity.
      * apply Hall. reflexivity.
    + exists (tr1 ++ tr2 ++ [Fallo e]). split.
      * rewrite H, E1, <- app_assoc. reflexivity.
      * apply Hall. reflexivity.
  - intros [= _ <-].
    destruct (mostrarMensaje_campos ERROR_AGREGAR true s1)
      as (_ & _ & _ & _ & _ & _ & H7 & _).
    campos. rewrite H7. exists tr1. split; [exact E1|].
    eapply Forall_impl; [|exact F1]. intros c <-. left. reflexivity.
Qed.

(** * The claims *)



(** C2: when 4 attempts in a row fail, [fetchWithRetry] rejects with the
    error of the 4th attempt; it has issued exactly 4 requests, the last
    event of the run is the 4th request, and the delays awaited are
    1000 ms, 2000 ms, 4000 ms. *)
Theorem fetchWithRetry_gives_up
  (net : nat -> NetReply) (u : jsstring) (options : Options) (s : Estado)
  (e1 e2 e3 e4 : JsError) :
  fallan net (sent s) [e1; e2; e3; e4] ->
  exists s' tr,
    fetchWithRetry net u options 0 s = (Throw e4, s') /\
    sent s' = sent s + 4 /\
    trace s' = trace s ++ tr /\
    tr = reintentos (spread u options) [e1; e2; e3] 0 (next_handle s)
           ++ [Peticion (spread u options)] /\
    peticiones tr = repeat (spread u options) 4 /\
    demoras tr = [1000; 2000; 4000]%N.
Proof.
  intros Hf.
  eexists. exists (reintentos (spread u options) [e1; e2; e3] 0 (next_handle s)
                     ++ [Peticion (spread u options)]).
  split; [|split; [|split; [|split; [|split]]]].
  - apply fetchWithRetry_tras_agotar. exact Hf.
  - rewrite tras_peticion_sent, tras_fallos_sent. simpl. lia.
  - rewrite tras_peticion_trace, tras_fallos_trace, app_assoc. reflexivity.
  - reflexivity.
  - reflexivity.
  - reflexivity.
Qed.

Lemma fetchWithRetry_gives_up_witness :
  exists s' tr,
    fetchWithRetry intermitente (API_URL ++ lit "/empleado") GET_empleado 0 inicial
      = (Throw rechazo, s') /\
    sent s' = sent inicial + 4 /\
    trace s' = trace inicial ++ tr /\
    tr = reintentos (spread (API_URL ++ lit "/empleado") GET_empleado)
           [caido; caido; rechazo] 0 (next_handle inicial)
           ++ [Peticion (spread (API_URL ++ lit "/empleado") GET_empleado)] /\
    peticiones tr = repeat (spread (API_URL ++ lit "/empleado") GET_empleado) 4 /\
    demoras tr = [1000; 2000; 4000]%N.
Proof.
  apply (fetchWithRetry_gives_up intermitente (API_URL ++ lit "/empleado")
           GET_empleado inicial caido caido rechazo rechazo).
  simpl. auto.
Defined.
(** C3: after [mostrarMensaje(texto, false)] the message is [texto] and
    one timer is pending, due 4000 ms later; the message stays until then
    and is cleared at that instant; a second call made before the deadline
    takes the first timer off the list, so the message it sets outlives
    the first deadline; and in every state the component reaches at most
    one such timer is pending. *)
Theorem mostrarMensaje_auto_clear (s : Estado) (texto : jsstring) :
  un_temporizador s ->
  let s1 := mostrarMensaje texto false s in
  let deadline := (clock s + 4000)%N in
  (mensajeEstado s1 = texto /\ timers s1 = [(next_handle s, deadline)]) /\
  (forall t, (t < deadline)%N ->
     mensajeEstado (avanzar t s1) = texto /\ timers (avanzar t s1) = timers s1) /\
  (forall t, (deadline <= t)%N ->
     mensajeEstado (avanzar t s1) = [] /\ timers (avanzar t s1) = []) /\
  (forall d texto2 error, (d < 4000)%N ->
     let s2 := mostrarMensaje texto2 error (transcurrir d s1) in
     ~ In (next_handle s) (map fst (timers s2)) /\
     timers s2 =
       (if error then [] else [(S (next_handle s), (clock s + d + 4000)%N)]) /\
     (forall t, (t < clock s + d + 4000)%N -> mensajeEstado (avanzar t s2) = texto2)) /\
  (forall net s', alcanzable net s' -> List.length (timers s') <= 1).
Proof.
  intros Hinv s1 deadline.
  assert (E1 : s1 = mkEstado (empleados s) (isLoading s) false texto (nombreInput s)
                 (Some (next_handle s)) (clock s) [(next_handle s, deadline)]
                 (S (next_handle s)) (sent s) (trace s)).
  { apply mostrarMensaje_exito. exact Hinv. }
  split; [|split; [|split; [|split]]].
  - rewrite E1. split; reflexivity.
  - intros t Ht.
    destruct (avanzar_antes t s1) as (H1 & _ & H3 & _).
    + rewrite E1. simpl. unfold due. simpl.
      apply andb_true_iff. split; [|reflexivity].
      apply negb_true_iff, N.leb_gt. exact Ht.
    + rewrite H1, H3, E1. split; reflexivity.
  - intros t Ht. rewrite avanzar_eq, E1. simpl. unfold pendientes, due. simpl.
    apply N.leb_le in Ht. rewrite Ht. simpl. split; reflexivity.
  - intros d texto2 error Hd s2.
    assert (E2 : transcurrir d s1 =
                 mkEstado (empleados s) (isLoading s) false texto (nombreInput s)
                   (Some (next_handle s)) (clock s + d)%N [(next_handle s, deadline)]
                   (S (next_handle s)) (sent s) (trace s)).
    { unfold transcurrir. rewrite avanzar_eq, E1. simpl. unfold pendientes, due. simpl.
      assert (Hnd : (deadline <=? clock s + d)%N = false)
        by (apply N.leb_gt; subst deadline; lia).
      rewrite Hnd. simpl. f_equal. lia. }
    assert (Hinv2 : un_temporizador (transcurrir d s1)) by (rewrite E2; reflexivity).
    destruct error.
    + assert (E3 : s2 = mkEstado (empleados s) (isLoading s) true texto2 (nombreInput s)
                     (Some (next_handle s)) (clock s + d)%N []
                     (S (next_handle s)) (sent s) (trace s)).
      { subst s2. rewrite mostrarMensaje_error by exact Hinv2. rewrite E2. reflexivity. }
      rewrite E3. cbn [timers map fst]. split; [tauto|]. split; [reflexivity|].
      intros t _. rewrite avanzar_eq. reflexivity.
    + assert (E3 : s2 = mkEstado (empleados s) (isLoading s) false texto2 (nombreInput s)
                     (Some (S (next_handle s))) (clock s + d)%N
                     [(S (next_handle s), (clock s + d + 4000)%N)]
                     (S (S (next_handle s))) (sent s) (trace s)).
      { subst s2. rewrite mostrarMensaje_exito by exact Hinv2. rewrite E2. reflexivity. }
      rewrite E3. cbn [timers map fst]. split; [|split; [reflexivity|]].
      * intros [H|[]]. lia.
      * intros t Ht. rewrite avanzar_eq. simpl. unfold due. simpl.
        apply N.leb_gt in Ht. rewrite Ht. reflexivity.
  - intros net s' Hs'. apply alcanzable_un_temporizador in Hs'.
    unfold un_temporizador in Hs'.
    destruct (timers s') as [|[id dl] [|? ?]]; simpl; try lia; contradiction.
Qed.

Lemma mostrarMensaje_auto_clear_witness :
  un_temporizador inicial /\
  let s1 := mostrarMensaje (lit "Empleado agregado") false inicial in
  let deadline := (clock inicial + 4000)%N in
  (mensajeEstado s1 = lit "Empleado agregado" /\
   timers s1 = [(next_handle inicial, deadline)]) /\
  (forall t, (t < deadline)%N ->
     mensajeEstado (avanzar t s1) = lit "Empleado agregado" /\
     timers (avanzar t s1) = timers s1) /\
  (forall t, (deadline <= t)%N ->
     mensajeEstado (avanzar t s1) = [] /\ timers (avanzar t s1) = []) /\
  (forall d texto2 error, (d < 4000)%N ->
     let s2 := mostrarMensaje texto2 error (transcurrir d s1) in
     ~ In (next_handle inicial) (map fst (timers s2)) /\
     timers s2 =
       (if error then []
        else [(S (next_handle inicial), (clock inicial + d + 4000)%N)]) /\
     (forall t, (t < clock inicial + d + 4000)%N ->
        mensajeEstado (avanzar t s2) = texto2)) /\
  (forall net s', alcanzable net s' -> List.length (timers s') <= 1).
Proof.
  split.
  - exact I.
  - apply (mostrarMensaje_auto_clear inicial (lit "Empleado agregado")). exact I.
Defined.

(** C4: after [mostrarMensaje(texto, true)] no timer is pending, so however
    the clock advances the message stays [texto] and stays an error; only
    another call of [mostrarMensaje] replaces it. *)
Theorem mostrarMensaje_error_persists (s : Estado) (texto : jsstring) :
  un_temporizador s ->
  let s1 := mostrarMensaje texto true s in
  mensajeEstado s1 = texto /\ esError s1 = true /\ timers s1 = [] /\
  forall ts : list N,
    let s2 := fold_left (fun s' t => avanzar t s') ts s1 in
    mensajeEstado s2 = texto /\ esError s2 = true /\ timers s2 = [].
Proof.
  intros Hinv s1.
  assert (E1 : mensajeEstado s1 = texto /\ esError s1 = true /\ timers s1 = []).
  { subst s1. rewrite mostrarMensaje_error by exact Hinv. repeat split. }
  split; [apply E1|]. split; [apply E1|]. split; [apply E1|].
  intros ts. revert E1. generalize s1. clear s1 Hinv.
  induction ts as [|t ts IH]; intros s1 E1 s2; [exact E1|].
  apply IH. destruct E1 as (Hm & He & Ht).
  destruct (avanzar_sin_temporizadores t s1 Ht) as [H1 H2].
  destruct (avanzar_marco t s1) as (_ & _ & H3 & _).
  rewrite H1, H3. auto.
Qed.


Lemma mostrarMensaje_error_persists_witness :
  un_temporizador (mostrarMensaje (lit "Lista actualizada") false inicial) /\
  let s1 := mostrarMensaje ERROR_AGREGAR true
              (mostrarMensaje (lit "Lista actualizada") false inicial) in
  mensajeEstado s1 = ERROR_AGREGAR /\ esError s1 = true /\ timers s1 = [] /\
  forall ts : list N,
    let s2 := fold_left (fun s' t => avanzar t s') ts s1 in
    mensajeEstado s2 = ERROR_AGREGAR /\ esError s2 = true /\ timers s2 = [].
Proof.
  split.
  - reflexivity.
  - apply (mostrarMensaje_error_persists
             (mostrarMensaje (lit "Lista actualizada") false inicial) ERROR_AGREGAR).
    reflexivity.
Defined.

(** C5: when the input field is empty or holds only white space,
    [agregarEmpleado] sends nothing (no request is counted and the trace is
    unchanged) and shows the error message for an empty name; when it is
    not, the first request sent is the write with the trimmed name, and no
    other name is ever written. *)
Theorem agregarEmpleado_rejects_blank (net : nat -> NetReply) (s : Estado) :
  (forallb is_space (nombreInput s) = true ->
   exists s',
     agregarEmpleado net s = (Ok tt, s') /\
     sent s' = sent s /\ trace s' = trace s /\
     mensajeEstado s' = NOMBRE_VACIO /\ esError s' = true) /\
  (forallb is_space (nombreInput s) = false ->
   exists s' tr,
     agregarEmpleado net s = (Ok tt, s') /\
     trace s' = trace s ++ Peticion (escribir (trim (nombreInput s))) :: tr /\
     Forall (fun c => c = escribir (trim (nombreInput s)) \/ c = leer)
       (peticiones tr)).
Proof.
  split; intros Hb.
  - exists (mostrarMensaje NOMBRE_VACIO true s).
    rewrite agregarEmpleado_eq, Hb.
    destruct (mostrarMensaje_campos NOMBRE_VACIO true s)
      as (H1 & H2 & _ & _ & _ & H6 & H7 & _).
    auto.
  - destruct (agregarEmpleado_termina net s) as [s' E].
    destruct (agregarEmpleado_traza _ _ _ _ Hb E) as (tr & Ht & Hp).
    exists s', tr. auto.
Qed.

Lemma agregarEmpleado_rejects_blank_witness :
  (exists s',
     agregarEmpleado (servidor ejemplo) (con_nombre "") = (Ok tt, s') /\
     sent s' = sent (con_nombre "") /\ trace s' = trace (con_nombre "") /\
     mensajeEstado s' = NOMBRE_VACIO /\ esError s' = true) /\
  (exists s',
     agregarEmpleado (servidor ejemplo) (con_nombre "   ") = (Ok tt, s') /\
     sent s' = sent (con_nombre "   ") /\ trace s' = trace (con_nombre "   ") /\
     mensajeEstado s' = NOMBRE_VACIO /\ esError s' = true) /\
  (exists s' tr,
     agregarEmpleado (servidor ejemplo) (con_nombre " Carla ") = (Ok tt, s') /\
     trace s' = trace (con_nombre " Carla ")
                  ++ Peticion (escribir (trim (nombreInput (con_nombre " Carla ")))) :: tr /\
     Forall (fun c => c = escribir (trim (nombreInput (con_nombre " Carla "))) \/ c = leer)
       (peticiones tr)).
Proof.
  split; [|split].
  - apply (agregarEmpleado_rejects_blank (servidor ejemplo) (con_nombre "")).
    reflexivity.
  - apply (agregarEmpleado_rejects_blank (servidor ejemplo) (con_nombre "   ")).
    reflexivity.
  - apply (agregarEmpleado_rejects_blank (servidor ejemplo) (con_nombre " Carla ")).
    reflexivity.
Defined.

(** C6, as the code has it: a reload whose request succeeds (after at most
    3 failures) with an array puts in the list exactly the received records
    as [sort] orders them, a permutation of them that is in ascending order
    of [id_empleado] when every record carries a numeric one; the message
    is "Lista actualizada (N) empleados" with N the number of records, and
    neither the error flag nor the loading flag is set.  For the response
    [{id_empleado:3,nombre:"B"},{id_empleado:1,nombre:"A"}] the rows shown
    are A #1, B #3 and the message reads "Lista actualizada (2) empleados". *)
Theorem obtenerEmpleados_replaces_sorted
  (net : nat -> NetReply) (s : Estado) (errores : list JsError)
  (st : Z) (filas : list object) :
  List.length errores <= 3 ->
  fallan net (sent s) errores ->
  outcome (net (sent s + List.length errores)) = Http st (Arreglo filas) ->
  validateStatus st = true ->
  exists s',
    obtenerEmpleados net s = (Ok tt, s') /\
    empleados s' = sort por_id filas /\
    Permutation filas (empleados s') /\
    (forallb tiene_id filas = true -> StronglySorted por_clave (empleados s')) /\
    mensajeEstado s' = LISTA_ACTUALIZADA (List.length filas) /\
    esError s' = false /\ isLoading s' = false /\
    (filas = ejemplo ->
     vista s' = Lista [(lit "A", lit "#1"); (lit "B", lit "#3")] /\
     mensajeEstado s' = lit "Lista actualizada (2) empleados").
Proof.
  intros Hk Hf Hout Hst.
  destruct (obtenerEmpleados_exito net s errores st filas Hk Hf Hout Hst) as (s1 & _ & E).
  exists (recarga_lograda filas s1).
  destruct (mostrarMensaje_campos
              (LISTA_ACTUALIZADA (List.length (sort por_id filas))) false
              (set_empleados (sort por_id filas) s1))
    as (H1 & H2 & H3 & _).
  assert (He : empleados (recarga_lograda filas s1) = sort por_id filas)
    by (unfold recarga_lograda; campos; exact H3).
  assert (Hm : mensajeEstado (recarga_lograda filas s1) =
               LISTA_ACTUALIZADA (List.length filas))
    by (unfold recarga_lograda; campos; rewrite H1, sort_length; reflexivity).
  assert (Hx : esError (recarga_lograda filas s1) = false)
    by (unfold recarga_lograda; campos; exact H2).
  assert (Hl : isLoading (recarga_lograda filas s1) = false) by reflexivity.
  split; [exact E|]. split; [exact He|]. split; [|split; [|split; [|split; [|split]]]].
  - rewrite He. apply sort_perm.
  - intros Hid. rewrite He. apply sort_sorted. exact Hid.
  - exact Hm.
  - exact Hx.
  - exact Hl.
  - intros ->. split.
    + unfold vista. rewrite Hl, Hx, He. reflexivity.
    + rewrite Hm. reflexivity.
Qed.

Lemma obtenerEmpleados_replaces_sorted_witness :
  exists s',
    obtenerEmpleados (inestable ejemplo) inicial = (Ok tt, s') /\
    empleados s' = sort por_id ejemplo /\
    Permutation ejemplo (empleados s') /\
    (forallb tiene_id ejemplo = true -> StronglySorted por_clave (empleados s')) /\
    mensajeEstado s' = LISTA_ACTUALIZADA (List.length ejemplo) /\
    esError s' = false /\ isLoading s' = false /\
    (ejemplo = ejemplo ->
     vista s' = Lista [(lit "A", lit "#1"); (lit "B", lit "#3")] /\
     mensajeEstado s' = lit "Lista actualizada (2) empleados").
Proof.
  apply (obtenerEmpleados_replaces_sorted (inestable ejemplo) inicial
           errores_inestable 200 ejemplo).
  - simpl. lia.
  - simpl. auto.
  - reflexivity.
  - reflexivity.
Defined.

(** C6, as the specification has it, fails: when the records come under
    the names [id_employee] and [name], the component reads
    [id_empleado] and [nombre], finds neither, and the rows shown are not
    A #1, B #3. *)
Lemma obtenerEmpleados_english_fields :
  vista (snd (obtenerEmpleados (servidor ejemplo_en) inicial))
  <> Lista [(lit "A", lit "#1"); (lit "B", lit "#3")].
Proof. vm_compute. discriminate. Qed.

(** What is shown instead: two rows in the order received, without name
    and without id. *)
Lemma obtenerEmpleados_english_fields_shown :
  vista (snd (obtenerEmpleados (servidor ejemplo_en) inicial))
  = Lista [([], lit "#"); ([], lit "#")] /\
  empleados (snd (obtenerEmpleados (servidor ejemplo_en) inicial)) = ejemplo_en.
Proof. split; vm_compute; reflexivity. Qed.

(** C7: when the name is not blank and the write fails 4 times in a row,
    [agregarEmpleado] leaves the input field as it was, shows the error
    message of the write, and ends with the loading flag down; the list is
    untouched and exactly 4 requests were sent. *)
Theorem agregarEmpleado_exhausted
  (net : nat -> NetReply) (s : Estado) (e1 e2 e3 e4 : JsError) :
  forallb is_space (nombreInput s) = false ->
  fallan net (sent s) [e1; e2; e3; e4] ->
  exists s',
    agregarEmpleado net s = (Ok tt, s') /\
    nombreInput s' = nombreInput s /\
    mensajeEstado s' = ERROR_AGREGAR /\ esError s' = true /\
    isLoading s' = false /\
    empleados s' = empleados s /\ sent s' = sent s + 4.
Proof.
  intros Hb Hf.
  destruct (agregarEmpleado_agotado net s e1 e2 e3 e4 Hb Hf)
    as (s1 & (He & _ & _ & Hn) & Hs & E).
  eexists. split; [exact E|].
  destruct (mostrarMensaje_campos ERROR_AGREGAR true s1)
    as (H1 & H2 & H3 & _ & H5 & H6 & _).
  campos. rewrite H1, H2, H3, H5, H6, He, Hn, Hs. repeat split.
Qed.

Lemma agregarEmpleado_exhausted_witness :
  exists s',
    agregarEmpleado intermitente (con_nombre "Carla") = (Ok tt, s') /\
    nombreInput s' = nombreInput (con_nombre "Carla") /\
    mensajeEstado s' = ERROR_AGREGAR /\ esError s' = true /\
    isLoading s' = false /\
    empleados s' = empleados (con_nombre "Carla") /\
    sent s' = sent (con_nombre "Carla") + 4.
Proof.
  apply (agregarEmpleado_exhausted intermitente (con_nombre "Carla")
           caido caido rechazo rechazo).
  - reflexivity.
  - simpl. auto.
Defined.

(** C8, as the code has it: when an operation exhausts its retries, the
    message it shows does not depend on what the failures were (transport
    errors, responses outside 2xx, or a mix) but on the request that was
    given up: "Error al conectar con el servidor." when it is the read of
    the roster, in a reload or in the reload a submission runs once its
    write has been accepted, and "Error al agregar empleado." when it is
    the write of a submission; the error flag is raised in each case. *)
Theorem exhaustion_messages
  (net : nat -> NetReply) (s : Estado) (e1 e2 e3 e4 : JsError) :
  (fallan net (sent s) [e1; e2; e3; e4] ->
   (exists s',
      obtenerEmpleados net s = (Ok tt, s') /\
      mensajeEstado s' = lit "Error al conectar con el servidor." /\
      esError s' = true) /\
   (forallb is_space (nombreInput s) = false ->
    exists s',
      agregarEmpleado net s = (Ok tt, s') /\
      mensajeEstado s' = lit "Error al agregar empleado." /\
      esError s' = true)) /\
  (forall (errores : list JsError) (st : Z) (body : Body),
     forallb is_space (nombreInput s) = false ->
     List.length errores <= 3 ->
     fallan net (sent s) errores ->
     outcome (net (sent s + List.length errores)) = Http st body ->
     validateStatus st = true ->
     fallan net (sent s + List.length errores + 1) [e1; e2; e3; e4] ->
     exists s',
       agregarEmpleado net s = (Ok tt, s') /\
       mensajeEstado s' = lit "Error al conectar con el servidor." /\
       esError s' = true).
Proof.
  split.
  - intros Hf. split.
    + destruct (obtenerEmpleados_agotado net s e1 e2 e3 e4 Hf) as (s1 & _ & _ & E).
      eexists. split; [exact E|].
      destruct (recarga_fallida_campos e4 s1) as (_ & H2 & _ & H4 & _).
      split; assumption.
    + intros Hb.
      destruct (agregarEmpleado_agotado net s e1 e2 e3 e4 Hb Hf) as (s1 & _ & _ & E).
      eexists. split; [exact E|].
      destruct (mostrarMensaje_campos ERROR_AGREGAR true s1) as (H1 & H2 & _).
      campos. split; assumption.
  - intros errores st body Hb Hk Hf Hout Hst Hf2.
    destruct (agregarEmpleado_recarga_agotada net s errores st body e1 e2 e3 e4
                Hb Hk Hf Hout Hst Hf2) as (s2 & E).
    eexists. split; [exact E|].
    destruct (recarga_fallida_campos e4 s2) as (_ & H2 & _ & H4 & _).
    campos. split; assumption.
Qed.

Lemma exhaustion_messages_witness :
  fallan intermitente (sent (con_nombre "Carla")) [caido; caido; rechazo; rechazo] /\
  (exists s',
     obtenerEmpleados intermitente (con_nombre "Carla") = (Ok tt, s') /\
     mensajeEstado s' = lit "Error al conectar con el servidor." /\
     esError s' = true) /\
  (exists s',
     agregarEmpleado intermitente (con_nombre "Carla") = (Ok tt, s') /\
     mensajeEstado s' = lit "Error al agregar empleado." /\
     esError s' = true) /\
  fallan se_degrada_tras_escribir (sent (con_nombre "Carla")) [caido] /\
  outcome (se_degrada_tras_escribir (sent (con_nombre "Carla") + List.length [caido]))
    = Http 201 Otro /\
  fallan se_degrada_tras_escribir (sent (con_nombre "Carla") + List.length [caido] + 1)
    [caido; rechazo; rechazo; rechazo] /\
  (exists s',
     agregarEmpleado se_degrada_tras_escribir (con_nombre "Carla") = (Ok tt, s') /\
     mensajeEstado s' = lit "Error al conectar con el servidor." /\
     esError s' = true).
Proof.
  assert (H : fallan intermitente (sent (con_nombre "Carla"))
                [caido; caido; rechazo; rechazo]) by (simpl; auto).
  assert (H1 : fallan se_degrada_tras_escribir (sent (con_nombre "Carla")) [caido])
    by (simpl; auto).
  assert (H2 : fallan se_degrada_tras_escribir
                 (sent (con_nombre "Carla") + List.length [caido] + 1)
                 [caido; rechazo; rechazo; rechazo]) by (simpl; auto).
  split; [exact H|]. split; [|split; [|split; [exact H1|split; [reflexivity|split; [exact H2|]]]]].
  - apply (proj1 (exhaustion_messages intermitente (con_nombre "Carla")
                    caido caido rechazo rechazo) H).
  - apply (proj1 (exhaustion_messages intermitente (con_nombre "Carla")
                    caido caido rechazo rechazo) H).
    reflexivity.
  - apply (proj2 (exhaustion_messages se_degrada_tras_escribir (con_nombre "Carla")
                    caido rechazo rechazo rechazo) [caido] 201%Z Otro).
    + reflexivity.
    + simpl. lia.
    + exact H1.
    + reflexivity.
    + reflexivity.
    + exact H2.
Defined.

(** C8, as the specification has it, fails: with no server at all, the
    message of an exhausted submission is not the message of an exhausted
    reload. *)
Lemma exhaustion_messages_differ :
  mensajeEstado (snd (agregarEmpleado sin_servidor (con_nombre "Carla")))
  <> mensajeEstado (snd (obtenerEmpleados sin_servidor (con_nombre "Carla"))).
Proof. vm_compute. discriminate. Qed.

(** The two messages, with no server and with a server that answers 500. *)
Lemma exhaustion_messages_shown :
  mensajeEstado (snd (obtenerEmpleados sin_servidor (con_nombre "Carla")))
    = lit "Error al conectar con el servidor." /\
  mensajeEstado (snd (obtenerEmpleados servidor_500 (con_nombre "Carla")))
    = lit "Error al conectar con el servidor." /\
  mensajeEstado (snd (agregarEmpleado sin_servidor (con_nombre "Carla")))
    = lit "Error al agregar empleado." /\
  mensajeEstado (snd (agregarEmpleado servidor_500 (con_nombre "Carla")))
    = lit "Error al agregar empleado.".
Proof. repeat split; vm_compute; reflexivity. Qed.

(** C9, as the code has it: a submission with a name first sends
    POST http://localhost:4001/empleado with the body [{nombre: ...}]
    holding the trimmed name; any 2xx reply to it makes the submission
    succeed (the input field is cleared), and neither its status nor its
    body has any bearing on what follows. *)
Theorem agregarEmpleado_request (net : nat -> NetReply) (s : Estado) :
  forallb is_space (nombreInput s) = false ->
  (exists s' tr,
     agregarEmpleado net s = (Ok tt, s') /\
     trace s' = trace s ++
       Peticion (mkConfig (lit "http://localhost:4001/empleado") (lit "POST")
                   (Some [(lit "nombre", JStr (trim (nombreInput s)))])) :: tr) /\
  (forall st body,
     outcome (net (sent s)) = Http st body -> validateStatus st = true ->
     (exists s', agregarEmpleado net s = (Ok tt, s') /\ nombreInput s' = []) /\
     (forall net' st' body',
        outcome (net' (sent s)) = Http st' body' -> validateStatus st' = true ->
        latency (net' (sent s)) = latency (net (sent s)) ->
        (forall i, sent s < i -> net' i = net i) ->
        agregarEmpleado net' s = agregarEmpleado net s)).
Proof.
  intros Hb. split.
  - destruct (agregarEmpleado_termina net s) as [s' E].
    destruct (agregarEmpleado_traza _ _ _ _ Hb E) as (tr & Ht & _).
    exists s', tr. split; [exact E | exact Ht].
  - intros st body Hout Hst.
    assert (Hpost : forall n st0 body0,
              outcome (n (sent s)) = Http st0 body0 -> validateStatus st0 = true ->
              fetchWithRetry n (API_URL ++ lit "/empleado")
                (POST_empleado (trim (nombreInput s))) 0 (set_isLoading true s) =
              (Ok (mkResponse st0 body0),
               tras_peticion n (escribir (trim (nombreInput s))) (set_isLoading true s))).
    { intros n st0 body0 Ho Hv. apply fetchWithRetry_exito.
      unfold settle. campos. rewrite Ho, Hv. reflexivity. }
    split.
    + destruct (agregarEmpleado_termina net s) as [s' E].
      exists s'. split; [exact E|].
      rewrite agregarEmpleado_eq, Hb, (Hpost net st body Hout Hst) in E.
      destruct (obtenerEmpleados net _) as [r2 s2] eqn:G.
      injection E as _ <-.
      apply obtenerEmpleados_nombreInput in G. campos. rewrite G.
      apply mostrarMensaje_campos.
    + intros net' st' body' Hout' Hst' Hlat Hext.
      rewrite !agregarEmpleado_eq, Hb.
      rewrite (Hpost net st body Hout Hst), (Hpost net' st' body' Hout' Hst').
      assert (Hp : tras_peticion net' (escribir (trim (nombreInput s))) (set_isLoading true s)
                   = tras_peticion net (escribir (trim (nombreInput s))) (set_isLoading true s)).
      { unfold tras_peticion. campos. rewrite Hlat. reflexivity. }
      rewrite Hp.
      rewrite (obtenerEmpleados_ext net' net); [reflexivity|].
      intros i Hi. apply Hext.
      destruct (mostrarMensaje_campos (EMPLEADO_AGREGADO (trim (nombreInput s))) false
                  (set_nombreInput []
                     (tras_peticion net (escribir (trim (nombreInput s)))
                        (set_isLoading true s))))
        as (_ & _ & _ & _ & _ & H6 & _).
      rewrite H6 in Hi. campos. cbn [sent set_nombreInput] in Hi.
      rewrite tras_peticion_sent in Hi. cbn [sent set_isLoading] in Hi. lia.
Qed.

Lemma agregarEmpleado_request_witness :
  forallb is_space (nombreInput (con_nombre " Carla ")) = false /\
  (exists s' tr,
     agregarEmpleado (servidor ejemplo) (con_nombre " Carla ") = (Ok tt, s') /\
     trace s' = trace (con_nombre " Carla ") ++
       Peticion (mkConfig (lit "http://localhost:4001/empleado") (lit "POST")
                   (Some [(lit "nombre", JStr (lit "Carla"))])) :: tr) /\
  (exists s', agregarEmpleado (servidor ejemplo) (con_nombre " Carla ") = (Ok tt, s')
              /\ nombreInput s' = []) /\
  agregarEmpleado (servidor_201 ejemplo) (con_nombre " Carla ")
    = agregarEmpleado (servidor ejemplo) (con_nombre " Carla ").
Proof.
  assert (H : forallb is_space (nombreInput (con_nombre " Carla ")) = false)
    by reflexivity.
  destruct (agregarEmpleado_request (servidor ejemplo) (con_nombre " Carla ") H)
    as [H1 H2].
  destruct (H2 200%Z (Arreglo ejemplo) eq_refl eq_refl) as [H3 H4].
  split; [exact H|]. split; [exact H1|]. split; [exact H3|].
  apply (H4 (servidor_201 ejemplo) 201%Z Otro); try reflexivity.
  intros [|i] Hi; [inversion Hi | reflexivity].
Defined.

(** C9, as the specification has it, fails: no request to
    [/employee] with a body [{name: ...}] is ever sent. *)
Lemma agregarEmpleado_no_english_request :
  ~ In (Peticion (mkConfig (lit "http://localhost:4001/employee") (lit "POST")
                    (Some [(lit "name", JStr (lit "Carla"))])))
       (trace (snd (agregarEmpleado (servidor ejemplo) (con_nombre "Carla")))).
Proof.
  vm_compute. intros H.
  repeat (destruct H as [H|H]; [discriminate H|]). exact H.
Qed.

(** C10: a reload that ends in failure leaves the list empty, whatever it
    held before: the list is emptied before the request goes out and the
    failure path does not put anything back.  The run itself completes
    without rejecting, with the error flag up, the loading flag down, and
    the list area showing the load error. *)
Theorem obtenerEmpleados_failure_empties
  (net : nat -> NetReply) (s : Estado) (r : result JsError unit) (s' : Estado) :
  obtenerEmpleados net s = (r, s') ->
  termina_en_fallo s s' ->
  r = Ok tt /\ empleados s' = [] /\ esError s' = true /\ vista s' = ErrorCarga.
Proof.
  intros E (tr' & e & Ht).
  destruct (obtenerEmpleados_termina net s) as (s0 & E0).
  assert (Hr : r = Ok tt) by congruence.
  destruct (obtenerEmpleados_traza _ _ _ _ E)
    as (tr & Htr & [[_ H]|(He & Hl & Hi & _)]).
  - exfalso. rewrite H in Ht. apply app_inv_head in Ht. subst tr.
    apply Forall_app in Htr as [_ Htr]. inversion Htr as [|? ? Hf _]. exact Hf.
  - repeat split; try assumption.
    unfold vista. rewrite He, Hl, Hi. reflexivity.
Qed.

Lemma obtenerEmpleados_failure_empties_witness :
  empleados cargado <> [] /\
  obtenerEmpleados (se_cae ejemplo) cargado
    = (Ok tt, snd (obtenerEmpleados (se_cae ejemplo) cargado)) /\
  termina_en_fallo cargado (snd (obtenerEmpleados (se_cae ejemplo) cargado)) /\
  (@Ok JsError unit tt = Ok tt /\
   empleados (snd (obtenerEmpleados (se_cae ejemplo) cargado)) = [] /\
   esError (snd (obtenerEmpleados (se_cae ejemplo) cargado)) = true /\
   vista (snd (obtenerEmpleados (se_cae ejemplo) cargado)) = ErrorCarga).
Proof.
  assert (H1 : obtenerEmpleados (se_cae ejemplo) cargado
               = (Ok tt, snd (obtenerEmpleados (se_cae ejemplo) cargado)))
    by (vm_compute; reflexivity).
  assert (H2 : termina_en_fallo cargado
                 (snd (obtenerEmpleados (se_cae ejemplo) cargado))).
  { exists (removelast
              (skipn (List.length (trace cargado))
                 (trace (snd (obtenerEmpleados (se_cae ejemplo) cargado))))), caido.
    vm_compute. reflexivity. }
  split; [vm_compute; discriminate|]. split; [exact H1|]. split; [exact H2|].
  exact (obtenerEmpleados_failure_empties (se_cae ejemplo) cargado (Ok tt)
           (snd (obtenerEmpleados (se_cae ejemplo) cargado)) H1 H2).
Defined.

(** * Further properties *)

(** ** The retrying client, whatever the network does *)

Lemma avanzar_clock t s : clock (avanzar t s) = N.max (clock s) t.
Proof. rewrite avanzar_eq. destruct existsb; reflexivity. Qed.

Lemma transcurrir_clock d s : clock (transcurrir d s) = (clock s + d)%N.
Proof. unfold transcurrir. rewrite avanzar_clock. lia. Qed.

Lemma dormir_clock d s : clock (dormir d s) = (clock s + d)%N.
Proof. unfold dormir. rewrite transcurrir_clock. reflexivity. Qed.

Lemma tras_peticion_clock net c s :
  clock (tras_peticion net c s) = (clock s + latency (net (sent s)))%N.
Proof. unfold tras_peticion. rewrite transcurrir_clock. reflexivity. Qed.

(** Every call is a run of failures followed by one last attempt, whose
    outcome is the outcome of the call; the call rejects only when no
    retry is left. *)
Lemma fetchWithRetry_forma net u options : forall retries s,
  exists errores,
    List.length errores <= MAX_RETRIES - retries /\
    fallan net (sent s) errores /\
    (forall e, settle (net (sent s + List.length errores)) = Throw e ->
               List.length errores = MAX_RETRIES - retries) /\
    fetchWithRetry net u options retries s =
    (settle (net (sent s + List.length errores)),
     tras_peticion net (spread u options)
       (tras_fallos net (spread u options) errores retries s)).
Proof.
  intros retries.
  remember (MAX_RETRIES - retries) as k eqn:Hk.
  revert retries Hk.
  induction k as [|k IH]; intros retries Hk s.
  - exists []. rewrite Nat.add_0_r.
    split; [apply Nat.le_refl|]. split; [exact I|]. split; [reflexivity|].
    rewrite fetchWithRetry_eq.
    destruct (settle (net (sent s))) as [response|error]; [reflexivity|].
    destruct (Nat.ltb_spec retries MAX_RETRIES); [lia | reflexivity].
  - destruct (settle (net (sent s))) as [response|error] eqn:E.
    + exists []. rewrite Nat.add_0_r.
      split; [apply Nat.le_0_l|]. split; [exact I|].
      split; [intros e He; congruence|].
      rewrite fetchWithRetry_eq, E. reflexivity.
    + destruct (IH (S retries) ltac:(lia)
                  (dormir (backoff retries)
                     (anotar (Aviso (aviso retries (backoff retries)) error)
                        (tras_peticion net (spread u options) s))))
        as (errores & Hlen & Hf & Hthrow & Hrun).
      rewrite dormir_sent in Hf, Hthrow, Hrun.
      cbn [sent anotar] in Hf, Hthrow, Hrun.
      rewrite tras_peticion_sent in Hf, Hthrow, Hrun.
      exists (error :: errores). cbn [List.length].
      replace (sent s + S (List.length errores))
        with (S (sent s) + List.length errores) by lia.
      split; [lia|]. split; [split; assumption|].
      split; [intros e He; rewrite (Hthrow e He); lia|].
      rewrite tras_fallos_cons, fetchWithRetry_eq, E.
      destruct (Nat.ltb_spec retries MAX_RETRIES); [exact Hrun | lia].
Qed.


Lemma tras_fallos_clock net u options errores : forall retries s,
  clock (tras_fallos net (spread u options) errores retries s) =
  (clock s +
   fold_right N.add 0
     (map (fun i => latency (net (sent s + i)%nat) + backoff (retries + i)%nat)
        (seq 0 (List.length errores))))%N.
Proof.
  induction errores as [|e resto IH]; intros retries s.
  - simpl. lia.
  - rewrite tras_fallos_cons, IH, dormir_clock, dormir_sent.
    cbn [clock sent anotar]. rewrite tras_peticion_clock, tras_peticion_sent.
    cbn [List.length seq map fold_right].
    rewrite <- seq_shift, map_map, !Nat.add_0_r.
    rewrite (map_ext
               (fun i => (latency (net (sent s + S i)%nat) + backoff (retries + S i)%nat)%N)
               (fun i => (latency (net (S (sent s) + i)%nat) + backoff (S retries + i)%nat)%N)).
    + lia.
    + intros i. rewrite !Nat.add_succ_r. reflexivity.
Qed.

(** X2: a call returns when the latencies of its requests and the back-off
    delays [DELAY_MS * 2^i] between them have elapsed, and no later. *)
Theorem fetchWithRetry_elapsed
  (net : nat -> NetReply) (u : jsstring) (options : Options) (s : Estado) :
  exists k r s',
    fetchWithRetry net u options 0 s = (r, s') /\
    sent s' = sent s + k + 1 /\
    clock s' =
      (clock s
       + fold_right N.add 0
           (map (fun i => latency (net (sent s + i)%nat) + DELAY_MS * 2 ^ N.of_nat i)
              (seq 0 k))
       + latency (net (sent s + k)%nat))%N.
Proof.
  destruct (fetchWithRetry_forma net u options 0 s)
    as (errores & Hlen & Hf & Hthrow & Hrun).
  exists (List.length errores). eexists. eexists. split; [exact Hrun|]. split.
  - rewrite tras_peticion_sent, tras_fallos_sent. lia.
  - rewrite tras_peticion_clock, tras_fallos_clock, tras_fallos_sent. reflexivity.
Qed.

(** X3: a call that gives up has kept its caller waiting for 7000 ms of
    back-off on top of the four latencies. *)
Theorem fetchWithRetry_gives_up_after
  (net : nat -> NetReply) (u : jsstring) (options : Options) (s : Estado)
  (e1 e2 e3 e4 : JsError) :
  fallan net (sent s) [e1; e2; e3; e4] ->
  exists s',
    fetchWithRetry net u options 0 s = (Throw e4, s') /\
    clock s' =
      (clock s + 7000
       + latency (net (sent s)) + latency (net (sent s + 1)%nat)
       + latency (net (sent s + 2)%nat) + latency (net (sent s + 3)%nat))%N.
Proof.
  intros Hf. eexists. split.
  - apply fetchWithRetry_tras_agotar. exact Hf.
  - rewrite tras_peticion_clock, tras_fallos_clock, tras_fallos_sent.
    cbn [List.length seq map fold_right].
    change (backoff (0 + 0)) with 1000%N.
    change (backoff (0 + 1)) with 2000%N.
    change (backoff (0 + 2)) with 4000%N.
    rewrite Nat.add_0_r. lia.
Qed.

Lemma fetchWithRetry_gives_up_after_witness :
  fallan intermitente (sent inicial) [caido; caido; rechazo; rechazo] /\
  exists s',
    fetchWithRetry intermitente (API_URL ++ lit "/empleado") GET_empleado 0 inicial
      = (Throw rechazo, s') /\
    clock s' =
      (clock inicial + 7000
       + latency (intermitente (sent inicial))
       + latency (intermitente (sent inicial + 1)%nat)
       + latency (intermitente (sent inicial + 2)%nat)
       + latency (intermitente (sent inicial + 3)%nat))%N.
Proof.
  assert (H : fallan intermitente (sent inicial) [caido; caido; rechazo; rechazo])
    by (simpl; auto).
  split; [exact H|].
  exact (fetchWithRetry_gives_up_after intermitente (API_URL ++ lit "/empleado")
           GET_empleado inicial caido caido rechazo rechazo H).
Defined.


Lemma solo_expira_trans a b c :
  solo_expira a b -> solo_expira b c -> solo_expira a c.
Proof.
  intros (M1 & [E1|E1] & [T1|T1] & I1 & C1) (M2 & [E2|E2] & [T2|T2] & I2 & C2);
    (split; [eapply marco_trans; eassumption|]);
    (split; [first [left; congruence | right; congruence]|]);
    (split; [first [left; congruence | right; congruence]|]);
    (split; [intros x Hx; apply I1, I2, Hx | lia]).
Qed.

Lemma avanzar_solo_expira t s : solo_expira s (avanzar t s).
Proof.
  split; [apply avanzar_marco|].
  rewrite avanzar_eq. unfold pendientes.
  destruct (existsb (due t) (timers s)); cbn [mensajeEstado mensajeTimeoutId timers clock];
    (split; [auto|]); (split; [auto|]);
    (split; [intros x Hx; apply filter_In in Hx; apply Hx | lia]).
Qed.

Lemma solo_expira_tras (f : Estado -> Estado) d s :
  marco s (f s) -> mensajeEstado (f s) = mensajeEstado s ->
  mensajeTimeoutId (f s) = mensajeTimeoutId s -> timers (f s) = timers s ->
  clock (f s) = clock s ->
  solo_expira s (transcurrir d (f s)).
Proof.
  intros Hm He Ht Hl Hc.
  apply solo_expira_trans with (b := f s); [|apply avanzar_solo_expira].
  split; [exact Hm|]. rewrite He, Ht, Hl, Hc.
  repeat split; auto. lia.
Qed.

(** X4: whatever the network does, a call of [fetchWithRetry] leaves the
    list, the flags and the input field alone; the message is as before or
    has expired; no message timer is added; the clock does not go back. *)
Theorem fetchWithRetry_only_expires
  (net : nat -> NetReply) (u : jsstring) (options : Options)
  (retries : nat) (s : Estado) :
  exists r s',
    fetchWithRetry net u options retries s = (r, s') /\
    empleados s' = empleados s /\ isLoading s' = isLoading s /\
    esError s' = esError s /\ nombreInput s' = nombreInput s /\
    (mensajeEstado s' = mensajeEstado s \/ mensajeEstado s' = []) /\
    (forall timer, In timer (timers s') -> In timer (timers s)) /\
    (clock s <= clock s')%N.
Proof.
  destruct (fetchWithRetry net u options retries s) as [r s'] eqn:E.
  exists r, s'. split; [reflexivity|].
  assert (H : solo_expira s s').
  { revert E. apply fetchWithRetry_pasos with (P := solo_expira).
    - exact solo_expira_trans.
    - intros s0. unfold tras_peticion.
      apply (solo_expira_tras
               (fun x => anotar (Peticion (spread u options)) (set_sent (S (sent x)) x)));
        try reflexivity. repeat split.
    - intros m e s0. repeat split; auto. apply N.le_refl.
    - intros d s0. unfold dormir.
      apply (solo_expira_tras
               (fun x => anotar (Espera (next_handle x) d)
                           (set_next_handle (S (next_handle x)) x)));
        try reflexivity. repeat split. }
  destruct H as ((H1 & H2 & H3 & H4) & H5 & _ & H7 & H8).
  repeat split; assumption.
Qed.

(** ** The controller, whatever the network does *)

Lemma mostrarMensaje_lee m error s :
  mensajeEstado (mostrarMensaje m error s) = m /\
  esError (mostrarMensaje m error s) = error /\
  empleados (mostrarMensaje m error s) = empleados s /\
  isLoading (mostrarMensaje m error s) = isLoading s /\
  nombreInput (mostrarMensaje m error s) = nombreInput s /\
  sent (mostrarMensaje m error s) = sent s /\
  trace (mostrarMensaje m error s) = trace s /\
  clock (mostrarMensaje m error s) = clock s.
Proof. exact (mostrarMensaje_campos m error s). Qed.

Lemma recarga_lograda_campos filas s1 :
  empleados (recarga_lograda filas s1) = sort por_id filas /\
  isLoading (recarga_lograda filas s1) = false /\
  esError (recarga_lograda filas s1) = false /\
  mensajeEstado (recarga_lograda filas s1) = LISTA_ACTUALIZADA (List.length filas) /\
  nombreInput (recarga_lograda filas s1) = nombreInput s1 /\
  sent (recarga_lograda filas s1) = sent s1 /\
  trace (recarga_lograda filas s1) = trace s1 /\
  clock (recarga_lograda filas s1) = clock s1.
Proof.
  unfold recarga_lograda.
  destruct (mostrarMensaje_lee
              (LISTA_ACTUALIZADA (List.length (sort por_id filas))) false
              (set_empleados (sort por_id filas) s1))
    as (H1 & H2 & H3 & H4 & H5 & H6 & H7 & H8).
  cbn [empleados nombreInput sent trace clock set_empleados] in H3, H5, H6, H7, H8.
  campos. repeat split; try assumption.
  rewrite H1. rewrite sort_length. reflexivity.
Qed.

Lemma obtenerEmpleados_por_casos net s :
  exists errores s1,
    List.length errores <= 3 /\
    fallan net (sent s) errores /\
    (forall e, settle (net (sent s + List.length errores)) = Throw e ->
               List.length errores = 3) /\
    fetchWithRetry net (API_URL ++ lit "/empleado") GET_empleado 0 (al_recargar s)
      = (settle (net (sent s + List.length errores)), s1) /\
    sent s1 = sent s + List.length errores + 1 /\
    obtenerEmpleados net s =
      (Ok tt, fin_de_recarga (settle (net (sent s + List.length errores))) s1).
Proof.
  destruct (fetchWithRetry_forma net (API_URL ++ lit "/empleado") GET_empleado 0
              (al_recargar s)) as (errores & Hlen & Hf & Hthrow & Hrun).
  change (sent (al_recargar s)) with (sent s) in Hf, Hthrow, Hrun.
  exists errores. eexists.
  split; [exact Hlen|]. split; [exact Hf|]. split; [exact Hthrow|].
  split; [exact Hrun|]. split.
  - rewrite tras_peticion_sent, tras_fallos_sent. unfold al_recargar. campos. lia.
  - rewrite obtenerEmpleados_eq, Hrun. unfold fin_de_recarga.
    destruct (settle (net (sent s + List.length errores))) as [response|error];
      [|reflexivity].
    destruct (data response); reflexivity.
Qed.



(** X6: after a reload that succeeds with an array of records that all
    carry a numeric [id_empleado], the list held is the array rearranged
    in ascending order of id, records of equal id in their order of
    arrival.  The list area shows the notice for an empty roster when the
    array is empty, and otherwise one row per record held, in that order;
    the message box is green and counts the records. *)
Theorem obtenerEmpleados_view
  (net : nat -> NetReply) (s : Estado) (errores : list JsError)
  (st : Z) (filas : list object) :
  List.length errores <= 3 ->
  fallan net (sent s) errores ->
  outcome (net (sent s + List.length errores)) = Http st (Arreglo filas) ->
  validateStatus st = true ->
  forallb tiene_id filas = true ->
  exists s',
    obtenerEmpleados net s = (Ok tt, s') /\
    Permutation filas (empleados s') /\
    StronglySorted por_clave (empleados s') /\
    (forall k, filter (fun e => (clave e =? k)%Z) (empleados s') =
               filter (fun e => (clave e =? k)%Z) filas) /\
    vista s' = match filas with
               | [] => SinEmpleados
               | _ :: _ => Lista (map fila (empleados s'))
               end /\
    List.length (empleados s') = List.length filas /\
    banner s' =
      Some (lit "bg-emerald-100 text-emerald-800 border-emerald-300",
            lit "Lista actualizada (" ++ of_nat (List.length filas)
              ++ lit ") empleados").
Proof.
  intros Hk Hf Hout Hst Hid.
  destruct (obtenerEmpleados_exito net s errores st filas Hk Hf Hout Hst)
    as (s1 & _ & E).
  destruct (recarga_lograda_campos filas s1) as (H1 & H2 & H3 & H4 & _).
  eexists. split; [exact E|]. rewrite H1.
  split; [apply sort_perm|]. split; [apply sort_sorted; exact Hid|].
  split; [intros k; apply sort_stable; exact Hid|]. split; [|split].
  - unfold vista. rewrite H2, H3, H1, sort_length.
    destruct filas as [|x l]; [reflexivity|]. cbn [List.length Nat.eqb andb negb].
    destruct (sort por_id (x :: l)) eqn:Es; [|reflexivity].
    apply (f_equal (@List.length object)) in Es. rewrite sort_length in Es.
    discriminate.
  - apply sort_length.
  - unfold banner, mensajeClase. rewrite H4, H3. reflexivity.
Qed.

Lemma obtenerEmpleados_view_witness :
  List.length errores_inestable <= 3 /\
  fallan (inestable ejemplo) (sent inicial) errores_inestable /\
  outcome (inestable ejemplo (sent inicial + List.length errores_inestable))
    = Http 200 (Arreglo ejemplo) /\
  validateStatus 200 = true /\
  forallb tiene_id ejemplo = true /\
  exists s',
    obtenerEmpleados (inestable ejemplo) inicial = (Ok tt, s') /\
    Permutation ejemplo (empleados s') /\
    StronglySorted por_clave (empleados s') /\
    (forall k, filter (fun e => (clave e =? k)%Z) (empleados s') =
               filter (fun e => (clave e =? k)%Z) ejemplo) /\
    vista s' = match ejemplo with
               | [] => SinEmpleados
               | _ :: _ => Lista (map fila (empleados s'))
               end /\
    List.length (empleados s') = List.length ejemplo /\
    banner s' =
      Some (lit "bg-emerald-100 text-emerald-800 border-emerald-300",
            lit "Lista actualizada (" ++ of_nat (List.length ejemplo)
              ++ lit ") empleados").
Proof.
  assert (H1 : List.length errores_inestable <= 3) by (simpl; lia).
  assert (H2 : fallan (inestable ejemplo) (sent inicial) errores_inestable)
    by (simpl; auto).
  split; [exact H1|]. split; [exact H2|]. split; [reflexivity|].
  split; [reflexivity|]. split; [reflexivity|].
  exact (obtenerEmpleados_view (inestable ejemplo) inicial errores_inestable 200 ejemplo
           H1 H2 eq_refl eq_refl eq_refl).
Defined.

(** X7: a 2xx response whose body is not an array is not retried and is
    handled as a failure: the TypeError of [data.sort] is logged, the list
    is left empty, and the connection message is shown with the error
    flag up. *)
Theorem obtenerEmpleados_malformed_body
  (net : nat -> NetReply) (s : Estado) (errores : list JsError) (st : Z) :
  List.length errores <= 3 ->
  fallan net (sent s) errores ->
  outcome (net (sent s + List.length errores)) = Http st Otro ->
  validateStatus st = true ->
  exists s',
    obtenerEmpleados net s = (Ok tt, s') /\
    sent s' = sent s + List.length errores + 1 /\
    trace s' = trace s ++ reintentos leer errores 0 (next_handle s)
                 ++ [Peticion leer; Fallo TypeError] /\
    empleados s' = [] /\ esError s' = true /\ isLoading s' = false /\
    mensajeEstado s' = lit "Error al conectar con el servidor." /\
    vista s' = ErrorCarga.
Proof.
  intros Hk Hf Hout Hst.
  assert (Hok : settle (net (sent (al_recargar s) + List.length errores)) =
                Ok (mkResponse st Otro)).
  { unfold settle, al_recargar. campos. rewrite Hout, Hst. reflexivity. }
  pose proof (fetchWithRetry_tras_exito net (API_URL ++ lit "/empleado") GET_empleado
                (al_recargar s) errores _ Hk Hf Hok) as E.
  fold leer in E.
  destruct (fetchWithRetry_marco _ _ _ _ _ _ _ E) as (He & _).
  destruct (recarga_fallida_campos TypeError
              (tras_peticion net leer (tras_fallos net leer errores 0 (al_recargar s))))
    as (H1 & H2 & H3 & H4 & _ & H6 & H7).
  eexists. split; [rewrite obtenerEmpleados_eq, E; reflexivity|].
  split; [|split; [|split; [|split; [|split; [|split]]]]].
  - rewrite H6. unfold leer.
    rewrite tras_peticion_sent, tras_fallos_sent. unfold al_recargar. campos. lia.
  - rewrite H7. unfold leer.
    rewrite tras_peticion_trace, tras_fallos_trace. unfold al_recargar. campos.
    rewrite <- !app_assoc. reflexivity.
  - rewrite H1. exact He.
  - exact H2.
  - exact H3.
  - exact H4.
  - unfold vista. rewrite H3, H2. reflexivity.
Qed.

Lemma obtenerEmpleados_malformed_body_witness :
  List.length (@nil JsError) <= 3 /\
  fallan sin_contenido (sent cargado) [] /\
  exists s',
    obtenerEmpleados sin_contenido cargado = (Ok tt, s') /\
    sent s' = sent cargado + List.length (@nil JsError) + 1 /\
    trace s' = trace cargado ++ reintentos leer [] 0 (next_handle cargado)
                 ++ [Peticion leer; Fallo TypeError] /\
    empleados s' = [] /\ esError s' = true /\ isLoading s' = false /\
    mensajeEstado s' = lit "Error al conectar con el servidor." /\
    vista s' = ErrorCarga.
Proof.
  split; [apply Nat.le_0_l|]. split; [exact I|].
  apply (obtenerEmpleados_malformed_body sin_contenido cargado [] 204).
  - apply Nat.le_0_l.
  - exact I.
  - reflexivity.
  - reflexivity.
Defined.

(** ** Submissions *)

(** A reload whose request succeeds with an array, with the state it ends
    in spelled out. *)
Lemma obtenerEmpleados_exito_en net s errores st filas :
  List.length errores <= MAX_RETRIES ->
  fallan net (sent s) errores ->
  outcome (net (sent s + List.length errores)) = Http st (Arreglo filas) ->
  validateStatus st = true ->
  exists s1,
    fetchWithRetry net (API_URL ++ lit "/empleado") GET_empleado 0 (al_recargar s)
      = (Ok (mkResponse st (Arreglo filas)), s1) /\
    sent s1 = sent s + List.length errores + 1 /\
    obtenerEmpleados net s = (Ok tt, recarga_lograda filas s1).
Proof.
  intros Hk Hf Hout Hst.
  assert (Hok : settle (net (sent (al_recargar s) + List.length errores)) =
                Ok (mkResponse st (Arreglo filas))).
  { unfold settle, al_recargar. campos. rewrite Hout, Hst. reflexivity. }
  pose proof (fetchWithRetry_tras_exito net (API_URL ++ lit "/empleado") GET_empleado
                (al_recargar s) errores _ Hk Hf Hok) as E.
  eexists. split; [exact E|]. split.
  - rewrite tras_peticion_sent, tras_fallos_sent. unfold al_recargar. campos. lia.
  - rewrite obtenerEmpleados_eq, E. reflexivity.
Qed.

(** The state in which a submission whose write was accepted reloads. *)
Lemma agregarEmpleado_aceptado net s st body :
  forallb is_space (nombreInput s) = false ->
  outcome (net (sent s)) = Http st body ->
  validateStatus st = true ->
  exists s1,
    marco (set_isLoading true s) s1 /\ sent s1 = S (sent s) /\
    (un_temporizador s -> un_temporizador s1) /\
    agregarEmpleado net s =
    (let (r, s2) :=
       obtenerEmpleados net
         (mostrarMensaje (EMPLEADO_AGREGADO (trim (nombreInput s))) false
            (set_nombreInput [] s1)) in
     (r, set_isLoading false s2)).
Proof.
  intros Hb Hout Hst.
  assert (E : fetchWithRetry net (API_URL ++ lit "/empleado")
                (POST_empleado (trim (nombreInput s))) 0 (set_isLoading true s) =
              (Ok (mkResponse st body),
               tras_peticion net (escribir (trim (nombreInput s)))
                 (set_isLoading true s))).
  { apply fetchWithRetry_exito. unfold settle. campos. rewrite Hout, Hst. reflexivity. }
  eexists. split; [eapply fetchWithRetry_marco; exact E|].
  split; [rewrite tras_peticion_sent; reflexivity|]. split.
  - intros H. eapply fetchWithRetry_un_temporizador; [exact E | exact H].
  - rewrite agregarEmpleado_eq, Hb, E. reflexivity.
Qed.



(** X9: a submission whose write is accepted but whose reload fails 4
    times ends as a failed reload does: the input field is empty, the list
    is empty, and the message is the one of the connection error, not the
    one of a failed write; 5 requests were sent. *)
Theorem agregarEmpleado_then_reload_fails
  (net : nat -> NetReply) (s : Estado) (st : Z) (body : Body)
  (e1 e2 e3 e4 : JsError) :
  forallb is_space (nombreInput s) = false ->
  outcome (net (sent s)) = Http st body -> validateStatus st = true ->
  fallan net (S (sent s)) [e1; e2; e3; e4] ->
  exists s',
    agregarEmpleado net s = (Ok tt, s') /\
    nombreInput s' = [] /\ empleados s' = [] /\
    mensajeEstado s' = lit "Error al conectar con el servidor." /\
    esError s' = true /\ isLoading s' = false /\
    vista s' = ErrorCarga /\
    sent s' = sent s + 5.
Proof.
  intros Hb Hout Hst Hf.
  destruct (agregarEmpleado_aceptado net s st body Hb Hout Hst)
    as (s1 & _ & Hs1 & _ & E).
  destruct (mostrarMensaje_lee (EMPLEADO_AGREGADO (trim (nombreInput s))) false
              (set_nombreInput [] s1)) as (_ & _ & _ & _ & Hn & Hsx & _).
  remember (mostrarMensaje (EMPLEADO_AGREGADO (trim (nombreInput s))) false
              (set_nombreInput [] s1)) as X eqn:EX.
  clear EX. cbn [nombreInput sent set_nombreInput] in Hn, Hsx.
  rewrite <- Hs1, <- Hsx in Hf.
  destruct (obtenerEmpleados_agotado net X e1 e2 e3 e4 Hf)
    as (s2 & (He & _ & _ & Hn2) & Hs2 & G).
  rewrite G in E.
  destruct (recarga_fallida_campos e4 s2) as (H1 & H2 & H3 & H4 & H5 & H6 & _).
  remember (recarga_fallida e4 s2) as Y eqn:EY. clear EY.
  eexists. split; [exact E|]. campos.
  split; [rewrite H5, Hn2; exact Hn|]. split; [rewrite H1; exact He|].
  split; [exact H4|]. split; [exact H2|]. split; [reflexivity|].
  split; [unfold vista; campos; rewrite H2; reflexivity|].
  rewrite H6, Hs2, Hsx, Hs1. lia.
Qed.

Lemma agregarEmpleado_then_reload_fails_witness :
  forallb is_space (nombreInput (con_nombre "Carla")) = false /\
  fallan se_cae_tras_escribir (S (sent (con_nombre "Carla")))
    [caido; caido; caido; caido] /\
  exists s',
    agregarEmpleado se_cae_tras_escribir (con_nombre "Carla") = (Ok tt, s') /\
    nombreInput s' = [] /\ empleados s' = [] /\
    mensajeEstado s' = lit "Error al conectar con el servidor." /\
    esError s' = true /\ isLoading s' = false /\
    vista s' = ErrorCarga /\
    sent s' = sent (con_nombre "Carla") + 5.
Proof.
  assert (H : fallan se_cae_tras_escribir (S (sent (con_nombre "Carla")))
                [caido; caido; caido; caido]) by (simpl; auto).
  split; [reflexivity|]. split; [exact H|].
  exact (agregarEmpleado_then_reload_fails se_cae_tras_escribir (con_nombre "Carla")
           201 Otro caido caido caido caido eq_refl eq_refl eq_refl H).
Defined.

(** X10: a blank submission changes nothing but the message: the list,
    the input field (white space included) and the loading flag are as
    before.  Since the error flag goes up, the message box is red and,
    when nothing is loading, the list area shows the load-error panel in
    place of the list. *)
Theorem agregarEmpleado_blank_view (net : nat -> NetReply) (s : Estado) :
  forallb is_space (nombreInput s) = true ->
  exists s',
    agregarEmpleado net s = (Ok tt, s') /\
    empleados s' = empleados s /\ nombreInput s' = nombreInput s /\
    isLoading s' = isLoading s /\ clock s' = clock s /\
    banner s' = Some (lit "bg-red-100 text-red-800 border-red-300", NOMBRE_VACIO) /\
    (isLoading s = false -> vista s' = ErrorCarga).
Proof.
  intros Hb.
  destruct (mostrarMensaje_lee NOMBRE_VACIO true s)
    as (H1 & H2 & H3 & H4 & H5 & _ & _ & H8).
  exists (mostrarMensaje NOMBRE_VACIO true s).
  split; [rewrite agregarEmpleado_eq, Hb; reflexivity|].
  remember (mostrarMensaje NOMBRE_VACIO true s) as Y eqn:EY. clear EY.
  repeat (split; [assumption|]). split.
  - unfold banner, mensajeClase. rewrite H1, H2. reflexivity.
  - intros Hl. unfold vista. rewrite H4, Hl, H2. reflexivity.
Qed.

Lemma agregarEmpleado_blank_view_witness :
  forallb is_space (nombreInput (set_nombreInput (lit "   ") cargado)) = true /\
  empleados (set_nombreInput (lit "   ") cargado) <> [] /\
  exists s',
    agregarEmpleado (se_cae ejemplo) (set_nombreInput (lit "   ") cargado) = (Ok tt, s') /\
    empleados s' = empleados (set_nombreInput (lit "   ") cargado) /\
    nombreInput s' = nombreInput (set_nombreInput (lit "   ") cargado) /\
    isLoading s' = isLoading (set_nombreInput (lit "   ") cargado) /\
    clock s' = clock (set_nombreInput (lit "   ") cargado) /\
    banner s' = Some (lit "bg-red-100 text-red-800 border-red-300", NOMBRE_VACIO) /\
    (isLoading (set_nombreInput (lit "   ") cargado) = false -> vista s' = ErrorCarga).
Proof.
  split; [reflexivity|]. split; [vm_compute; discriminate|].
  apply (agregarEmpleado_blank_view (se_cae ejemplo) (set_nombreInput (lit "   ") cargado)).
  reflexivity.
Defined.

(** X11: after a submission whose write failed 4 times, the list is still
    held but no longer shown: with the error flag up the list area shows
    the load-error panel, and the message box is red with the message of
    the failed write. *)
Theorem agregarEmpleado_exhausted_view
  (net : nat -> NetReply) (s : Estado) (e1 e2 e3 e4 : JsError) :
  forallb is_space (nombreInput s) = false ->
  fallan net (sent s) [e1; e2; e3; e4] ->
  exists s',
    agregarEmpleado net s = (Ok tt, s') /\
    empleados s' = empleados s /\
    vista s' = ErrorCarga /\
    banner s' = Some (lit "bg-red-100 text-red-800 border-red-300",
                      lit "Error al agregar empleado.") /\
    submitButtonContent s' = mkBoton [0xD83D; 0xDCBE]%N (lit "Guardar Empleado").
Proof.
  intros Hb Hf.
  destruct (agregarEmpleado_agotado net s e1 e2 e3 e4 Hb Hf)
    as (s1 & (He & _) & _ & E).
  destruct (mostrarMensaje_lee ERROR_AGREGAR true s1) as (H1 & H2 & H3 & _).
  remember (mostrarMensaje ERROR_AGREGAR true s1) as Y eqn:EY. clear EY.
  eexists. split; [exact E|].
  split; [campos; rewrite H3; exact He|]. split; [|split].
  - unfold vista. campos. rewrite H2. reflexivity.
  - unfold banner, mensajeClase. campos. rewrite H1, H2. reflexivity.
  - reflexivity.
Qed.

Lemma agregarEmpleado_exhausted_view_witness :
  forallb is_space (nombreInput (set_nombreInput (lit "Carla") cargado)) = false /\
  fallan (se_cae ejemplo) (sent (set_nombreInput (lit "Carla") cargado))
    [caido; caido; caido; caido] /\
  empleados (set_nombreInput (lit "Carla") cargado) <> [] /\
  exists s',
    agregarEmpleado (se_cae ejemplo) (set_nombreInput (lit "Carla") cargado) = (Ok tt, s') /\
    empleados s' = empleados (set_nombreInput (lit "Carla") cargado) /\
    vista s' = ErrorCarga /\
    banner s' = Some (lit "bg-red-100 text-red-800 border-red-300",
                      lit "Error al agregar empleado.") /\
    submitButtonContent s' = mkBoton [0xD83D; 0xDCBE]%N (lit "Guardar Empleado").
Proof.
  assert (H : fallan (se_cae ejemplo) (sent (set_nombreInput (lit "Carla") cargado))
                [caido; caido; caido; caido]) by (vm_compute; auto).
  split; [reflexivity|]. split; [exact H|]. split; [vm_compute; discriminate|].
  exact (agregarEmpleado_exhausted_view (se_cae ejemplo)
           (set_nombreInput (lit "Carla") cargado) caido caido caido caido eq_refl H).
Defined.



(** ** The component at rest *)

Lemma en_reposo_un_temporizador s : en_reposo s -> un_temporizador s.
Proof.
  unfold en_reposo, un_temporizador.
  intros (_ & [(_ & Ht & _)|(_ & [(_ & Ht)|(_ & id & limite & Ht & Hid & _)])]);
    rewrite Ht; [exact I | exact I | exact Hid].
Qed.

Lemma en_reposo_set_isLoading s : en_reposo s -> en_reposo (set_isLoading false s).
Proof.
  unfold en_reposo. intros (_ & H). split; [reflexivity | exact H].
Qed.

Lemma en_reposo_set_nombreInput v s : en_reposo s -> en_reposo (set_nombreInput v s).
Proof. unfold en_reposo. intros H. exact H. Qed.

Lemma mostrarMensaje_error_en_reposo m s :
  un_temporizador s -> texto_de_error m ->
  en_reposo (set_isLoading false (mostrarMensaje m true s)).
Proof.
  intros H Hm. rewrite mostrarMensaje_error by exact H.
  split; [reflexivity|]. left. repeat split. exact Hm.
Qed.

Lemma fin_de_recarga_en_reposo r s1 :
  un_temporizador s1 -> en_reposo (fin_de_recarga r s1).
Proof.
  intros H.
  assert (Hf : forall e, en_reposo (recarga_fallida e s1)).
  { intros e. unfold recarga_fallida.
    rewrite (mostrarMensaje_error ERROR_CONECTAR (anotar (Fallo e) s1)) by exact H.
    split; [reflexivity|]. left. repeat split. left. reflexivity. }
  unfold fin_de_recarga.
  destruct r as [response|error]; [|apply Hf].
  destruct (data response) as [filas|]; [|apply Hf].
  unfold recarga_lograda.
  rewrite (mostrarMensaje_exito _ (set_empleados (sort por_id filas) s1)) by exact H.
  split; [reflexivity|]. right. split; [reflexivity|]. right.
  split; [reflexivity|].
  exists (next_handle s1), (clock s1 + 4000)%N.
  cbn [timers mensajeTimeoutId clock set_isLoading set_empleados next_handle].
  repeat split; lia.
Qed.

Lemma transcurrir_en_reposo d s : en_reposo s -> en_reposo (transcurrir d s).
Proof.
  unfold transcurrir. rewrite avanzar_eq. unfold en_reposo.
  intros (Hl & [(He & Ht & Hm)|(He & [(Hm & Ht)|(Hm & id & limite & Ht & Hid & Hc)])]);
    rewrite Ht; unfold pendientes; rewrite Ht.
  - simpl. split; [exact Hl|]. left. repeat split; assumption.
  - simpl. split; [exact Hl|]. right. split; [exact He|]. left. split; [assumption|reflexivity].
  - cbn [existsb filter orb]. unfold due. cbn [snd].
    destruct (N.leb_spec limite (clock s + d)) as [Hd|Hd]; simpl.
    + split; [exact Hl|]. right. split; [exact He|]. left. split; reflexivity.
    + split; [exact Hl|]. right. split; [exact He|]. right. split; [exact Hm|].
      exists id, limite.
      repeat split; try assumption; lia.
Qed.

Lemma obtenerEmpleados_en_reposo net s r s' :
  un_temporizador s -> obtenerEmpleados net s = (r, s') -> en_reposo s'.
Proof.
  intros H.
  destruct (obtenerEmpleados_por_casos net s)
    as (errores & s1 & _ & _ & _ & Hrun & _ & G).
  rewrite G. intros [= _ <-].
  apply fin_de_recarga_en_reposo.
  exact (fetchWithRetry_un_temporizador _ _ _ _ _ _ _ Hrun H).
Qed.

Lemma agregarEmpleado_en_reposo net s r s' :
  en_reposo s -> agregarEmpleado net s = (r, s') -> en_reposo s'.
Proof.
  intros H. pose proof (en_reposo_un_temporizador s H) as Hu.
  rewrite agregarEmpleado_eq.
  destruct (forallb _ _).
  - intros [= _ <-].
    rewrite mostrarMensaje_error by exact Hu.
    destruct H as (Hl & _).
    split; [exact Hl|]. left. repeat split. right. left. reflexivity.
  - destruct (fetchWithRetry _ _ _ _ _) as [[response|error] s1] eqn:F;
      apply fetchWithRetry_un_temporizador in F; try exact Hu.
    + destruct (obtenerEmpleados net _) as [r2 s2] eqn:G.
      intros [= _ <-].
      apply en_reposo_set_isLoading.
      apply (obtenerEmpleados_en_reposo _ _ _ _ (mostrarMensaje_un_temporizador _ false
               (set_nombreInput [] s1) F) G).
    + intros [= _ <-].
      apply mostrarMensaje_error_en_reposo; [exact F|].
      right. right. reflexivity.
Qed.

Lemma alcanzable_en_reposo net s : alcanzable net s -> en_reposo s.
Proof.
  induction 1 as [r s' E | s r s' _ IH E | s r s' _ IH E | s v _ IH | s d _ IH].
  - apply (obtenerEmpleados_en_reposo net inicial r s'); [exact I | exact E].
  - apply (obtenerEmpleados_en_reposo net s r s');
      [apply en_reposo_un_temporizador; exact IH | exact E].
  - apply (agregarEmpleado_en_reposo net s r s'); assumption.
  - apply en_reposo_set_nombreInput. exact IH.
  - apply transcurrir_en_reposo. exact IH.
Qed.

Lemma texto_de_error_truthy m : texto_de_error m -> truthy m = true.
Proof. intros [-> | [-> | ->]]; reflexivity. Qed.

Lemma LISTA_ACTUALIZADA_truthy n : truthy (LISTA_ACTUALIZADA n) = true.
Proof. reflexivity. Qed.

(** X13: in every state the component reaches between two runs of its
    handlers nothing is loading, so the button reads "Guardar Empleado";
    the list area shows the load-error panel exactly when the error flag
    is up, and otherwise the empty notice or the rows; the message box is
    red with one of the three error texts when the flag is up, and
    otherwise absent or green with a count that is the number of rows
    held.  The confirmation of a write is never what is left on display. *)
Theorem alcanzable_at_rest (net : nat -> NetReply) (s : Estado) :
  alcanzable net s ->
  isLoading s = false /\
  submitButtonContent s = mkBoton [0xD83D; 0xDCBE]%N (lit "Guardar Empleado") /\
  vista s = (if esError s then ErrorCarga
             else match empleados s with
                  | [] => SinEmpleados
                  | _ :: _ => Lista (map fila (empleados s))
                  end) /\
  (esError s = true ->
   exists m, texto_de_error m /\
     banner s = Some (lit "bg-red-100 text-red-800 border-red-300", m)) /\
  (esError s = false ->
   banner s = None \/
   banner s = Some (lit "bg-emerald-100 text-emerald-800 border-emerald-300",
                    LISTA_ACTUALIZADA (List.length (empleados s)))).
Proof.
  intros Ha. apply alcanzable_en_reposo in Ha.
  destruct Ha as (Hl & H).
  split; [exact Hl|]. split; [unfold submitButtonContent; rewrite Hl; reflexivity|].
  split.
  - unfold vista. rewrite Hl. destruct (esError s); [reflexivity|].
    destruct (empleados s); reflexivity.
  - unfold banner, mensajeClase.
    destruct H as [(He & _ & Hm)|(He & [(Hm & _)|(Hm & _)])]; rewrite He; split;
      try discriminate; intros _.
    + exists (mensajeEstado s). split; [exact Hm|].
      rewrite (texto_de_error_truthy _ Hm). reflexivity.
    + left. rewrite Hm. reflexivity.
    + right. rewrite Hm. reflexivity.
Qed.

Lemma alcanzable_at_rest_witness :
  alcanzable (se_cae ejemplo)
    (snd (agregarEmpleado (se_cae ejemplo) (set_nombreInput (lit "Carla") cargado))) /\
  let s := snd (agregarEmpleado (se_cae ejemplo)
                  (set_nombreInput (lit "Carla") cargado)) in
  isLoading s = false /\
  submitButtonContent s = mkBoton [0xD83D; 0xDCBE]%N (lit "Guardar Empleado") /\
  vista s = (if esError s then ErrorCarga
             else match empleados s with
                  | [] => SinEmpleados
                  | _ :: _ => Lista (map fila (empleados s))
                  end) /\
  (esError s = true ->
   exists m, texto_de_error m /\
     banner s = Some (lit "bg-red-100 text-red-800 border-red-300", m)) /\
  (esError s = false ->
   banner s = None \/
   banner s = Some (lit "bg-emerald-100 text-emerald-800 border-emerald-300",
                    LISTA_ACTUALIZADA (List.length (empleados s)))).
Proof.
  assert (Ha : alcanzable (se_cae ejemplo)
                 (snd (agregarEmpleado (se_cae ejemplo)
                         (set_nombreInput (lit "Carla") cargado)))).
  { apply (alc_enviar (se_cae ejemplo) (set_nombreInput (lit "Carla") cargado) (Ok tt)).
    - apply alc_escribir.
      apply (alc_montado (se_cae ejemplo) (Ok tt)). vm_compute. reflexivity.
    - vm_compute. reflexivity. }
  split; [exact Ha|].
  apply (alcanzable_at_rest (se_cae ejemplo)). exact Ha.
Defined.

(** X14: left alone, a green message box is gone once 4000 ms have
    passed, a red one stays for good, and the list area does not change
    with time. *)
Theorem alcanzable_banner_lifetime (net : nat -> NetReply) (s : Estado) :
  alcanzable net s ->
  (esError s = false ->
   forall d, (4000 <= d)%N -> banner (transcurrir d s) = None) /\
  (esError s = true ->
   forall d, banner (transcurrir d s) = banner s) /\
  (forall d, vista (transcurrir d s) = vista s).
Proof.
  intros Ha. apply alcanzable_en_reposo in Ha.
  assert (Hv : forall d, vista (transcurrir d s) = vista s).
  { intros d. destruct (avanzar_marco (clock s + d) s) as (H1 & H2 & H3 & _).
    unfold transcurrir, vista. rewrite H1, H2, H3. reflexivity. }
  split; [|split; [|exact Hv]].
  - intros He d Hd.
    destruct Ha as (_ & [(He' & _)|(_ & [(Hm & Ht)|(_ & id & limite & Ht & _ & Hc)])]);
      [congruence | |];
      unfold banner, transcurrir; rewrite avanzar_eq, Ht.
    + cbn [existsb mensajeEstado]. rewrite Hm. reflexivity.
    + cbn [existsb orb]. unfold due. cbn [snd].
      assert (Hdue : (limite <=? clock s + d)%N = true) by (apply N.leb_le; lia).
      rewrite Hdue. reflexivity.
  - intros He d.
    destruct Ha as (_ & [(_ & Ht & _)|(He' & _)]); [|congruence].
    unfold banner, mensajeClase, transcurrir. rewrite avanzar_eq, Ht. reflexivity.
Qed.

Lemma alcanzable_banner_lifetime_witness :
  alcanzable (se_cae ejemplo) cargado /\
  (esError cargado = false ->
   forall d, (4000 <= d)%N -> banner (transcurrir d cargado) = None) /\
  (esError cargado = true ->
   forall d, banner (transcurrir d cargado) = banner cargado) /\
  (forall d, vista (transcurrir d cargado) = vista cargado).
Proof.
  assert (Ha : alcanzable (se_cae ejemplo) cargado).
  { apply (alc_montado (se_cae ejemplo) (Ok tt)). vm_compute. reflexivity. }
  split; [exact Ha|].
  apply (alcanzable_banner_lifetime (se_cae ejemplo)). exact Ha.
Defined.
(** ** Records without an id *)

Lemma sort_sin_orden (A : Type) (cmp : A -> A -> number) (l : list A) :
  (forall x y, In x l -> In y l -> sort_compare cmp x y = 0%Z) -> sort cmp l = l.
Proof.
  induction l as [|x l IH]; intros H; [reflexivity|].
  cbn [sort]. rewrite IH by (intros a b Ha Hb; apply H; right; assumption).
  destruct l as [|y l]; [reflexivity|].
  cbn [insert]. rewrite H; [reflexivity | left; reflexivity | right; left; reflexivity].
Qed.

Lemma por_id_sin_id a b :
  get (lit "id_empleado") a = None -> sort_compare por_id a b = 0%Z.
Proof.
  intros H. unfold sort_compare, por_id, id_empleado. rewrite H. reflexivity.
Qed.

Lemma fila_sin_id e :
  get (lit "id_empleado") e = None ->
  fila e = (toDisplayString (get (lit "nombre") e), lit "#").
Proof. intros H. unfold fila. rewrite H. reflexivity. Qed.

(** X15: when no record of the response has the property [id_empleado],
    every comparison of the sort yields NaN and the list is held and shown
    in the order of arrival, each row with a bare [#] for its id. *)
Theorem obtenerEmpleados_without_ids
  (net : nat -> NetReply) (s : Estado) (errores : list JsError)
  (st : Z) (filas : list object) :
  List.length errores <= 3 ->
  fallan net (sent s) errores ->
  outcome (net (sent s + List.length errores)) = Http st (Arreglo filas) ->
  validateStatus st = true ->
  (forall e, In e filas -> get (lit "id_empleado") e = None) ->
  exists s',
    obtenerEmpleados net s = (Ok tt, s') /\
    empleados s' = filas /\
    vista s' =
      match filas with
      | [] => SinEmpleados
      | _ :: _ =>
          Lista (map (fun e => (toDisplayString (get (lit "nombre") e), lit "#")) filas)
      end.
Proof.
  intros Hk Hf Hout Hst Hid.
  assert (Hs : sort por_id filas = filas).
  { apply sort_sin_orden. intros x y Hx _. apply por_id_sin_id, Hid, Hx. }
  destruct (obtenerEmpleados_exito_en net s errores st filas Hk Hf Hout Hst)
    as (s1 & _ & _ & E).
  destruct (recarga_lograda_campos filas s1) as (H1 & H2 & H3 & _).
  exists (recarga_lograda filas s1).
  split; [exact E|]. split; [rewrite H1; exact Hs|].
  unfold vista. rewrite H1, H2, H3, Hs.
  destruct filas as [|e filas]; [reflexivity|].
  cbn [List.length Nat.eqb andb negb]. f_equal.
  apply map_ext_in. intros a Ha. apply fila_sin_id, Hid, Ha.
Qed.

Lemma obtenerEmpleados_without_ids_witness :
  List.length (@nil JsError) <= 3 /\
  fallan (servidor ejemplo_en) (sent inicial) [] /\
  outcome (servidor ejemplo_en (sent inicial + List.length (@nil JsError)))
    = Http 200 (Arreglo ejemplo_en) /\
  validateStatus 200 = true /\
  (forall e, In e ejemplo_en -> get (lit "id_empleado") e = None) /\
  exists s',
    obtenerEmpleados (servidor ejemplo_en) inicial = (Ok tt, s') /\
    empleados s' = ejemplo_en /\
    vista s' =
      match ejemplo_en with
      | [] => SinEmpleados
      | _ :: _ =>
          Lista (map (fun e => (toDisplayString (get (lit "nombre") e), lit "#"))
                   ejemplo_en)
      end.
Proof.
  assert (Hid : forall e, In e ejemplo_en -> get (lit "id_empleado") e = None).
  { intros e [<-|[<-|[]]]; reflexivity. }
  split; [simpl; lia|]. split; [exact I|]. split; [reflexivity|].
  split; [reflexivity|]. split; [exact Hid|].
  apply (obtenerEmpleados_without_ids (servidor ejemplo_en) inicial [] 200 ejemplo_en).
  - simpl. lia.
  - exact I.
  - reflexivity.
  - reflexivity.
  - exact Hid.
Defined.

(** ** The name a submission sends *)

Lemma trimStart_partes (s : jsstring) :
  exists antes, s = antes ++ trimStart s /\ forallb is_space antes = true.
Proof.
  induction s as [|c s (antes & E & H)]; [exists []; split; reflexivity|].
  cbn [trimStart]. destruct (is_space c) eqn:Hc.
  - exists (c :: antes). split; [cbn [app]; f_equal; exact E|].
    cbn [forallb]. rewrite Hc, H. reflexivity.
  - exists []. split; reflexivity.
Qed.

Lemma trimEnd_partes (s : jsstring) :
  exists despues, s = trimEnd s ++ despues /\ forallb is_space despues = true.
Proof.
  unfold trimEnd. destruct (trimStart_partes (rev s)) as (a & E & H).
  exists (rev a). split.
  - rewrite <- rev_app_distr, <- E, rev_involutive. reflexivity.
  - rewrite forallb_forall in *. intros x Hx. apply H, in_rev. exact Hx.
Qed.

Lemma trimStart_final (l : jsstring) (c : N) :
  is_space c = false -> exists l', trimStart (l ++ [c]) = l' ++ [c].
Proof.
  intros Hc. induction l as [|x l (l' & E)]; cbn [app trimStart].
  - rewrite Hc. exists []. reflexivity.
  - destruct (is_space x); [exists l'; exact E|].
    exists (x :: l). reflexivity.
Qed.

Lemma trimEnd_head (c : N) (s : jsstring) :
  is_space c = false -> exists r, trimEnd (c :: s) = c :: r.
Proof.
  intros Hc. unfold trimEnd. cbn [rev].
  destruct (trimStart_final (rev s) c Hc) as (l' & E).
  rewrite E, rev_app_distr. exists (rev l'). reflexivity.
Qed.

Lemma trimEnd_last (s : jsstring) (c : N) (r : jsstring) :
  trimEnd s = c :: r -> is_space (last r c) = false.
Proof.
  unfold trimEnd. intros E.
  destruct (trimStart (rev s)) as [|x t] eqn:T; [discriminate|].
  apply trimStart_head in T.
  cbn [rev] in E.
  assert (L : last (c :: r) c = x) by (rewrite <- E; apply last_last).
  destruct r as [|y r]; [cbn [last] in *; congruence|].
  change (last (c :: y :: r) c) with (last (y :: r) c) in L.
  rewrite L. exact T.
Qed.

(** The trimmed string is the input without the white space around it,
    and it neither starts nor ends with white space. *)
Lemma trim_partes (s : jsstring) :
  forallb is_space s = false ->
  exists antes despues c r,
    s = antes ++ trim s ++ despues /\
    forallb is_space antes = true /\ forallb is_space despues = true /\
    trim s = c :: r /\ is_space c = false /\ is_space (last r c) = false.
Proof.
  intros Hb. unfold trim.
  destruct (trimStart_partes s) as (antes & E1 & H1).
  destruct (trimEnd_partes (trimStart s)) as (despues & E2 & H2).
  destruct (trimStart s) as [|c s1] eqn:T.
  - apply trimStart_nil_blank in T. congruence.
  - pose proof (trimStart_head _ _ _ T) as Hc.
    destruct (trimEnd_head c s1 Hc) as (r & Er).
    exists antes, despues, c, r.
    split; [rewrite <- E2; exact E1|].
    split; [exact H1|]. split; [exact H2|]. split; [exact Er|]. split; [exact Hc|].
    apply (trimEnd_last (c :: s1)). exact Er.
Qed.

(** X16: the name a submission sends is the input without the white
    space around it, with nothing else removed: it is not empty and it
    neither starts nor ends with white space.  The first request of the
    submission carries it, and so does every repetition of that request. *)
Theorem agregarEmpleado_payload (net : nat -> NetReply) (s : Estado) :
  forallb is_space (nombreInput s) = false ->
  exists nombre antes despues c r s' tr,
    agregarEmpleado net s = (Ok tt, s') /\
    trace s' = trace s ++ Peticion (escribir nombre) :: tr /\
    Forall (fun cfg => cfg = escribir nombre \/ cfg = leer) (peticiones tr) /\
    nombreInput s = antes ++ nombre ++ despues /\
    forallb is_space antes = true /\ forallb is_space despues = true /\
    nombre = c :: r /\ is_space c = false /\ is_space (last r c) = false.
Proof.
  intros Hb.
  destruct (trim_partes _ Hb) as (antes & despues & c & r & E & Ha & Hd & Et & Hc & Hl).
  destruct (agregarEmpleado_termina net s) as [s' Es].
  destruct (agregarEmpleado_traza net s (Ok tt) s' Hb Es) as (tr & Ht & Hall).
  exists (trim (nombreInput s)), antes, despues, c, r, s', tr.
  repeat (split; [assumption|]). exact Hl.
Qed.

Lemma agregarEmpleado_payload_witness :
  forallb is_space (nombreInput (con_nombre "  Ana Paz ")) = false /\
  exists nombre antes despues c r s' tr,
    agregarEmpleado (servidor_201 ejemplo) (con_nombre "  Ana Paz ") = (Ok tt, s') /\
    trace s' = trace (con_nombre "  Ana Paz ") ++ Peticion (escribir nombre) :: tr /\
    Forall (fun cfg => cfg = escribir nombre \/ cfg = leer) (peticiones tr) /\
    nombreInput (con_nombre "  Ana Paz ") = antes ++ nombre ++ despues /\
    forallb is_space antes = true /\ forallb is_space despues = true /\
    nombre = c :: r /\ is_space c = false /\ is_space (last r c) = false.
Proof.
  split; [reflexivity|].
  apply (agregarEmpleado_payload (servidor_201 ejemplo) (con_nombre "  Ana Paz ")).
  reflexivity.
Defined.
